(** * qwen-code: provider abstraction layer

    A shallow embedding of
    - [packages/core/src/core/openaiAdapter.ts] (class [OpenAIAdapter]:
      [getOpenAI], [toMessages], request construction, the streaming
      normalizer [generateContentStream], [generateContent], [countTokens]),
    - the two revisions of [contentGenerator.ts] ([createContentGenerator]),
    - the two revisions of [validateNonInteractiveAuth].

    Conventions.  A JavaScript string is a [string]: one [ascii] per code
    unit, so [String.length] is the [.length] of the source.  An optional
    field, or a field holding [undefined], is an [option].  A JavaScript
    object used as a dictionary ([process.env], [request.config], the
    provider request) is a [gmap]; a JSON object, whose key order is
    observable through [JSON.stringify], is an association list. *)

From Stdlib Require Import ZArith Ascii String List Lia.
From stdpp Require Import base option list strings gmap pretty.

Set Warnings "-register-all".
Local Open Scope Z_scope.

(** ** JavaScript values *)

Inductive JValue : Type :=
| JUndefined
| JNull
| JBool (b : bool)
| JNum (n : Z)
| JStr (s : string)
| JArr (items : list JValue)
| JObj (fields : list (string * JValue)).

(** The built-ins of the JavaScript runtime the adapter calls.
    [JSON_parse] is [None] where [JSON.parse] throws a [SyntaxError];
    [JSON_stringify] is [None] where [JSON.stringify] returns [undefined];
    [js_String] is the conversion [String(v)]. *)
Class JSRuntime : Type := {
  JSON_parse : string → option JValue;
  JSON_stringify : JValue → option string;
  js_String : JValue → string
}.

(** [o || d] for an optional string [o]: [undefined] and [''] are falsy. *)
Definition truthy (o : option string) : bool :=
  match o with
  | Some s => negb (bool_decide (s = ""))
  | None => false
  end.

Definition orElse (o : option string) (d : string) : string :=
  match o with
  | Some s => if bool_decide (s = "") then d else s
  | None => d
  end.

(** [k in obj] and [obj[k]] on a JSON object. *)
Fixpoint jget (k : string) (fields : list (string * JValue)) : option JValue :=
  match fields with
  | [] => None
  | (k', v) :: rest => if bool_decide (k' = k) then Some v else jget k rest
  end.

(** [obj[k] = v]: an existing key keeps its position. *)
Fixpoint jset (k : string) (v : JValue) (fields : list (string * JValue))
  : list (string * JValue) :=
  match fields with
  | [] => [(k, v)]
  | (k', v') :: rest =>
      if bool_decide (k' = k) then (k, v) :: rest else (k', v') :: jset k v rest
  end.

(** String literals of the development are written with an apostrophe for
    each double quote: [dq "{'a':1}"] is the text [{"a":1}]. *)
Fixpoint dq (s : string) : string :=
  match s with
  | EmptyString => EmptyString
  | String c s' =>
      String (if bool_decide (c = "'"%char) then "034"%char else c) (dq s')
  end.

(** [s.endsWith(suffix)] *)
Fixpoint isPrefix (p s : list ascii) : bool :=
  match p, s with
  | [], _ => true
  | a :: p', b :: s' => bool_decide (a = b) && isPrefix p' s'
  | _ :: _, [] => false
  end.

Definition endsWith (s suffix : string) : bool :=
  isPrefix (rev (list_ascii_of_string suffix)) (rev (list_ascii_of_string s)).

(** [s.replace(/\/+$/, '')]: drop the run of slashes at the end. *)
Fixpoint dropSlashes (r : list ascii) : list ascii :=
  match r with
  | a :: r' => if bool_decide (a = "/"%char) then dropSlashes r' else r
  | [] => []
  end.

Definition stripTrailingSlashes (s : string) : string :=
  string_of_list_ascii (rev (dropSlashes (rev (list_ascii_of_string s)))).

(** ** The streaming normalizer: [generateContentStream], lines 397-521 *)

Module Stream.

(** One entry of [delta.tool_calls] (and of [message.tool_calls]). *)
Record ToolCallFunction : Type := {
  tcf_name : option string;
  tcf_arguments : option string
}.

Record ToolCall : Type := {
  tc_index : Z;
  tc_function : option ToolCallFunction;
  tc_id : option string
}.

Record Delta : Type := {
  tool_calls : option (list ToolCall);
  content : option string
}.

Record Choice : Type := {
  delta : option Delta;
  finish_reason : option string
}.

Record Chunk : Type := { choices : list Choice }.

(** An element of [toolCallsBuffer]: the object literal of lines 421-428,
    whose [function.name] and [function.arguments] are always strings. *)
Record BufferedToolCall : Type := {
  b_index : Z;
  b_name : string;
  b_arguments : string;
  b_id : option string
}.

(** The three variables the generator closes over (lines 398-400). *)
Record StreamState : Type := {
  toolCallsBuffer : list BufferedToolCall;
  accumulatedText : string;
  hasToolCalls : bool
}.

Definition initial : StreamState :=
  {| toolCallsBuffer := []; accumulatedText := ""; hasToolCalls := false |}.

Record FunctionCall : Type := {
  fc_name : string;
  fc_args : JValue;
  fc_id : option string
}.

Inductive ResponsePart : Type :=
| TextPart (text : string)
| FunctionCallPart (name : string) (args : JValue).

Record Candidate : Type := {
  c_parts : list ResponsePart;
  c_role : string;
  c_index : Z;
  c_finishReason : option string;
  c_safetyRatings : list JValue
}.

(** The fields [data], [executableCode] and [codeExecutionResult] are
    [undefined] in every response the adapter builds and are left out. *)
Record GenerateContentResponse : Type := {
  candidates : list Candidate;
  r_text : string;
  functionCalls : option (list FunctionCall)
}.

(** [chunk.choices[0]?.delta], [...?.delta?.tool_calls],
    [...?.delta?.content] and [chunk.choices[0]?.finish_reason]. *)
Definition chunkDelta (chunk : Chunk) : option Delta :=
  head (choices chunk) ≫= delta.
Definition chunkToolCalls (chunk : Chunk) : option (list ToolCall) :=
  chunkDelta chunk ≫= tool_calls.
Definition chunkContent (chunk : Chunk) : option string :=
  chunkDelta chunk ≫= content.
Definition chunkFinish (chunk : Chunk) : option string :=
  head (choices chunk) ≫= finish_reason.

Definition fnName (tc : ToolCall) : option string := tc_function tc ≫= tcf_name.
Definition fnArguments (tc : ToolCall) : option string :=
  tc_function tc ≫= tcf_arguments.

(** Lines 413-418: update of the fragment found at the delta's index. *)
Definition updateExisting (existing : BufferedToolCall) (toolCall : ToolCall)
  : BufferedToolCall :=
  {| b_index := b_index existing;
     b_name := if truthy (fnName toolCall)
               then default "" (fnName toolCall) else b_name existing;
     b_arguments := if truthy (fnArguments toolCall)
                    then orElse (Some (b_arguments existing)) ""
                           +:+ default "" (fnArguments toolCall)
                    else b_arguments existing;
     b_id := if truthy (tc_id toolCall) then tc_id toolCall else b_id existing |}.

(** Lines 421-428. *)
Definition newToolCall (toolCall : ToolCall) : BufferedToolCall :=
  {| b_index := tc_index toolCall;
     b_name := orElse (fnName toolCall) "";
     b_arguments := orElse (fnArguments toolCall) "";
     b_id := tc_id toolCall |}.

(** Lines 409-430: the body of the loop over [delta.tool_calls]. *)
Definition mergeToolCall (buffer : list BufferedToolCall) (toolCall : ToolCall)
  : list BufferedToolCall :=
  match list_find (λ tc, b_index tc = tc_index toolCall) buffer with
  | Some (existingIndex, existing) =>
      <[existingIndex := updateExisting existing toolCall]> buffer
  | None => buffer ++ [newToolCall toolCall]
  end.

Definition mergeToolCalls (buffer : list BufferedToolCall) (l : list ToolCall)
  : list BufferedToolCall :=
  foldl mergeToolCall buffer l.

(** The chunks of the reassembly scenario: a delta for index 0 carrying a
    piece of the arguments text, and the closing chunk. *)
Definition argumentsChunk (name id : option string) (arguments : string)
    (text : option string) : Chunk :=
  {| choices :=
       [ {| delta :=
              Some {| tool_calls :=
                        Some [ {| tc_index := 0;
                                  tc_function :=
                                    Some {| tcf_name := name;
                                            tcf_arguments := Some arguments |};
                                  tc_id := id |} ];
                      content := text |};
            finish_reason := None |} ] |}.

Definition finishChunk (reason : string) (text : option string) : Chunk :=
  {| choices :=
       [ {| delta := Some {| tool_calls := None; content := text |};
            finish_reason := Some reason |} ] |}.

(** A chunk whose delta carries the entries [l]. *)
Definition toolCallsChunk (l : list ToolCall) (text reason : option string)
  : Chunk :=
  {| choices :=
       [ {| delta := Some {| tool_calls := Some l; content := text |};
            finish_reason := reason |} ] |}.

Definition textChunk (text : string) : Chunk :=
  {| choices :=
       [ {| delta := Some {| tool_calls := None; content := Some text |};
            finish_reason := None |} ] |}.

(** Every tool-call delta of a stream, in arrival order. *)
Definition allToolCalls (chunks : list Chunk) : list ToolCall :=
  concat (map (λ chunk, default [] (chunkToolCalls chunk)) chunks).

(** A stream with an interim text flush before a tool call whose
    arguments arrive in two pieces. *)
Definition interimStream : list Chunk :=
  [ textChunk "Hello, world";
    argumentsChunk (Some "f") (Some "call_1") (dq "{'a':1,") None;
    argumentsChunk None None (dq "'b':2}") (Some "more") ].

(** Two tool calls whose pieces arrive interleaved, index 1 first. *)
Definition interleavedStream : list Chunk :=
  [ toolCallsChunk
      [ {| tc_index := 1;
           tc_function := Some {| tcf_name := Some "g";
                                  tcf_arguments := Some "[1," |};
           tc_id := Some "call_2" |} ] None None;
    toolCallsChunk
      [ {| tc_index := 0;
           tc_function := Some {| tcf_name := Some "f";
                                  tcf_arguments := Some (dq "{'x':") |};
           tc_id := Some "call_1" |};
        {| tc_index := 1;
           tc_function := Some {| tcf_name := None;
                                  tcf_arguments := Some "2]" |};
           tc_id := None |} ] None None;
    toolCallsChunk
      [ {| tc_index := 0;
           tc_function := Some {| tcf_name := None;
                                  tcf_arguments := Some "true}" |};
           tc_id := None |} ] None (Some "tool_calls") ].

(** A closing chunk carrying a fragment that is not yet valid JSON. *)
Definition malformedChunk : Chunk :=
  toolCallsChunk
    [ {| tc_index := 0;
         tc_function := Some {| tcf_name := Some "f";
                                tcf_arguments := Some (dq "{'a':") |};
         tc_id := Some "call_1" |} ]
    None (Some "stop").

(** A closing chunk carrying two tool calls and some text. *)
Definition twoCallsChunk : Chunk :=
  toolCallsChunk
    [ {| tc_index := 0;
         tc_function := Some {| tcf_name := Some "f";
                                tcf_arguments := Some (dq "{'x':1}") |};
         tc_id := Some "call_1" |};
      {| tc_index := 1;
         tc_function := Some {| tcf_name := Some "g";
                                tcf_arguments := Some "[]" |};
         tc_id := Some "call_2" |} ]
    (Some "hi") (Some "tool_calls").

Definition isFunctionCallPart (p : ResponsePart) : bool :=
  match p with FunctionCallPart _ _ => true | TextPart _ => false end.

Section WithRuntime.
Context `{RT : JSRuntime}.

(** Lines 446-454 (and 318-326): [args] starts as the empty object and
    the [try]/[catch] puts the empty object back when the parse throws. *)
Definition parseArgs (arguments : option string) : JValue :=
  if truthy arguments then
    match JSON_parse (default "" arguments) with
    | Some v => v
    | None => JObj []
    end
  else JObj [].

(** Lines 445-463: the callback mapped over [toolCallsBuffer]. *)
Definition toFunctionCall (tc : BufferedToolCall) : FunctionCall :=
  {| fc_name := orElse (Some (b_name tc)) "";
     fc_args := parseArgs (Some (b_arguments tc));
     fc_id := b_id tc |}.

Definition flushFunctionCalls (buffer : list BufferedToolCall)
  : option (list FunctionCall) :=
  match buffer with
  | [] => None
  | _ :: _ => Some (map toFunctionCall buffer)
  end.

(** Lines 465-478. *)
Definition buildParts (text : string) (fcs : option (list FunctionCall))
  : list ResponsePart :=
  (if bool_decide (text = "") then [] else [TextPart text]) ++
  match fcs with
  | Some (fc0 :: _) => [FunctionCallPart (fc_name fc0) (fc_args fc0)]
  | _ => []
  end.

(** Lines 482-499. *)
Definition buildResponse (text : string) (fcs : option (list FunctionCall))
    (finish : option string) : GenerateContentResponse :=
  let parts := buildParts text fcs in
  {| candidates :=
       [ {| c_parts := match parts with [] => [TextPart ""] | _ => parts end;
            c_role := "model";
            c_index := 0;
            c_finishReason := finish;
            c_safetyRatings := [] |} ];
     r_text := orElse (Some text) "";
     functionCalls := fcs |}.

(** Lines 406-437: what one chunk adds to the three variables before
    any flush. *)
Definition absorb (s : StreamState) (chunk : Chunk) : StreamState :=
  {| toolCallsBuffer :=
       match chunkToolCalls chunk with
       | Some l => mergeToolCalls (toolCallsBuffer s) l
       | None => toolCallsBuffer s
       end;
     accumulatedText :=
       if truthy (chunkContent chunk)
       then accumulatedText s +:+ default "" (chunkContent chunk)
       else accumulatedText s;
     hasToolCalls :=
       match chunkToolCalls chunk with
       | Some _ => true
       | None => hasToolCalls s
       end |}.

(** Lines 440-441. *)
Definition isDone (chunk : Chunk) : bool :=
  bool_decide (chunkFinish chunk = Some "stop")
  || bool_decide (chunkFinish chunk = Some "tool_calls").

(** Lines 503-511. *)
Definition reset (s : StreamState) (done : bool) : StreamState :=
  if done then initial
  else {| toolCallsBuffer := toolCallsBuffer s;
          accumulatedText := "";
          hasToolCalls := hasToolCalls s |}.

(** One iteration of the [for await] loop (lines 404-514): the next
    state and the response yielded by it, if any. *)
Definition step (s : StreamState) (chunk : Chunk)
  : StreamState * option GenerateContentResponse :=
  let s2 := absorb s chunk in
  let done := isDone chunk in
  if done || (negb (hasToolCalls s2) && truthy (chunkContent chunk)) then
    let fcs := flushFunctionCalls (toolCallsBuffer s2) in
    if done || (10 <=? Z.of_nat (String.length (accumulatedText s2))) then
      (reset s2 done,
       Some (buildResponse (accumulatedText s2) fcs (chunkFinish chunk)))
    else (s2, None)
  else (s2, None).

(** The responses yielded while the stream [chunks] is consumed from
    state [s], in order. *)
Fixpoint run (s : StreamState) (chunks : list Chunk)
  : list GenerateContentResponse :=
  match chunks with
  | [] => []
  | chunk :: rest =>
      let '(s', out) := step s chunk in
      option_list out ++ run s' rest
  end.

(** The state the generator is in once [chunks] has been consumed. *)
Definition finalState (s : StreamState) (chunks : list Chunk) : StreamState :=
  foldl (λ st chunk, fst (step st chunk)) s chunks.

(** [gen()]: a fresh buffer, text and flag per call. *)
Definition gen (chunks : list Chunk) : list GenerateContentResponse :=
  run initial chunks.

End WithRuntime.

End Stream.

(** ** The non-streaming reply: [generateContent], lines 300-340 *)

Module Completion.
Import Stream.

Record CompletionMessage : Type := {
  msg_content : option string;
  msg_tool_calls : option (list ToolCall)
}.

Record CompletionChoice : Type := {
  message : CompletionMessage;
  cc_finish_reason : option string
}.

Record ChatCompletion : Type := { cc_choices : list CompletionChoice }.

Section WithRuntime.
Context `{RT : JSRuntime}.

(** Lines 317-335: the callback mapped over [message.tool_calls]. *)
Definition toFunctionCall (tc : ToolCall) : FunctionCall :=
  {| fc_name := orElse (fnName tc) "";
     fc_args := parseArgs (fnArguments tc);
     fc_id := tc_id tc |}.

(** Lines 303-338.  [None] is the [TypeError] of reading [.message] of
    a missing [choices[0]], which the [catch] of line 341 rethrows. *)
Definition assemble (completion : ChatCompletion)
  : option GenerateContentResponse :=
  match cc_choices completion with
  | [] => None
  | choice0 :: _ =>
      Some {| candidates :=
                [ {| c_parts :=
                       [TextPart (orElse (msg_content (message choice0)) "")];
                     c_role := "model";
                     c_index := 0;
                     c_finishReason := cc_finish_reason choice0;
                     c_safetyRatings := [] |} ];
              r_text := orElse (msg_content (message choice0)) "";
              functionCalls :=
                map toFunctionCall <$> msg_tool_calls (message choice0) |}
  end.
End WithRuntime.

End Completion.

(** ** The request translator: [toMessages] and the provider request *)

Module Translator.

Record FunctionResponse : Type := {
  fr_id : option string;
  fr_response : JValue
}.

(** A part of the internal content: any of the three payloads may be set. *)
Record Part : Type := {
  p_text : option string;
  p_functionCall : option JValue;
  p_functionResponse : option FunctionResponse
}.

(** [parts] is [None] when [c.parts] is not an array. *)
Record Content : Type := {
  role : option string;
  parts : option (list Part)
}.

Record Message : Type := {
  m_role : option string;
  m_tool_call_id : option string;
  m_content : option string
}.

Definition textPart (t : string) : Part :=
  {| p_text := Some t; p_functionCall := None; p_functionResponse := None |}.

Definition responsePart (id : option string) (payload : JValue) : Part :=
  {| p_text := None; p_functionCall := None;
     p_functionResponse := Some {| fr_id := id; fr_response := payload |} |}.

(** A tool result next to a text part. *)
Definition toolResultContent : Content :=
  {| role := Some "user";
     parts := Some [ textPart "ignored";
                     responsePart (Some "call_1")
                       (JObj [("output", JNum 42)]) ] |}.

(** [c.parts.find(p => p.functionResponse)] and
    [c.parts.find(p => p.functionCall)]. *)
Definition findFunctionResponse (ps : list Part) : option FunctionResponse :=
  match list_find (λ p, is_Some (p_functionResponse p)) ps with
  | Some (_, p) => p_functionResponse p
  | None => None
  end.

(** Whether a value counts as true in a test. *)
Definition jsTruthy (v : JValue) : bool :=
  match v with
  | JUndefined | JNull | JBool false | JNum 0 | JStr "" => false
  | _ => true
  end.

(** The test [p.functionCall] of line 131: the field is there and its
    value is not one of [null], [false], [0], ['']. *)
Definition carriesFunctionCall (p : Part) : bool :=
  match p_functionCall p with
  | Some v => jsTruthy v
  | None => false
  end.

Definition findFunctionCall (ps : list Part) : option JValue :=
  match list_find (λ p, carriesFunctionCall p = true) ps with
  | Some (_, p) => p_functionCall p
  | None => None
  end.

Section WithRuntime.
Context `{RT : JSRuntime}.

(** Lines 112-126.  An array is an object without an [output] or a
    [content] key; [null] fails the truthiness test of line 115. *)
Definition responseContent (response : JValue) : option string :=
  match response with
  | JStr s => Some s
  | JObj fields =>
      match jget "output" fields with
      | Some output => Some (js_String output)
      | None =>
          match jget "content" fields with
          | Some c => Some (js_String c)
          | None => JSON_stringify response
          end
      end
  | _ => JSON_stringify response
  end.

(** Lines 99-145: the callback mapped over [contents]. *)
Definition toMessage (c : Content) : Message :=
  let r := if bool_decide (role c = Some "model") then Some "assistant"
           else role c in
  match parts c with
  | Some ps =>
      match findFunctionResponse ps with
      | Some fr =>
          {| m_role := Some "tool";
             m_tool_call_id := fr_id fr;
             m_content := responseContent (fr_response fr) |}
      | None =>
          match findFunctionCall ps with
          | Some fc =>
              {| m_role := r; m_tool_call_id := None;
                 m_content := JSON_stringify fc |}
          | None =>
              {| m_role := r; m_tool_call_id := None;
                 m_content :=
                   Some (foldr String.append ""
                           (map (λ p, orElse (p_text p) "") ps)) |}
          end
      end
  | None => {| m_role := r; m_tool_call_id := None; m_content := Some "" |}
  end.

(** Lines 94-151; [contents] is [None] when it is not an array. *)
Definition toMessages (contents : option (list Content)) : list Message :=
  match contents with
  | Some cs => map toMessage cs
  | None => []
  end.
End WithRuntime.

(** *** The provider request, lines 272-298 and 366-393 *)

Inductive Provider : Type := OpenAI | DeepSeek | Ollama | Local.

(** The values the adapter stores in [requestConfig]. *)
Inductive RequestField : Type :=
| RModel (model : string)
| RMessages (messages : list Message)
| RStream (stream : bool)
| RParam (value : JValue)
| RTools (tools : list JValue)
| RToolChoice (choice : string).

(** [config?.k]: [undefined] for a missing [config] or a missing key. *)
Definition configGet (config : option (gmap string JValue)) (k : string)
  : JValue :=
  match config with
  | Some m => default JUndefined (m !! k)
  | None => JUndefined
  end.

Definition isUndefined (v : JValue) : bool :=
  match v with JUndefined => true | _ => false end.

(** Lines 182-203: every path of the [switch] ends in [false]. *)
Definition shouldSkipTools (provider : Provider) (model : string) : bool :=
  match provider with
  | Ollama => false
  | Local => false
  | DeepSeek => false
  | OpenAI => false
  end.

(** [if (config?.src !== undefined) requestConfig.dst = config.src] *)
Definition forward (config : option (gmap string JValue)) (src dst : string)
    (requestConfig : gmap string RequestField) : gmap string RequestField :=
  if isUndefined (configGet config src) then requestConfig
  else <[dst := RParam (configGet config src)]> requestConfig.

(** The request of [openai.chat.completions.create].  [base] is the
    object literal of lines 272-275 (366-370 for a stream), and
    [convertToOpenAITools] stands for the method of lines 153-180, whose
    schema conversion is not looked into here. *)
Definition fillRequest (convertToOpenAITools : JValue → list JValue)
    (provider : Provider) (model : string)
    (config : option (gmap string JValue))
    (base : gmap string RequestField) : gmap string RequestField :=
  let rc := forward config "temperature" "temperature" base in
  let rc := forward config "maxOutputTokens" "max_tokens" rc in
  let rc := forward config "top_p" "top_p" rc in
  if jsTruthy (configGet config "tools") && negb (shouldSkipTools provider model)
  then
    let openaiTools := convertToOpenAITools (configGet config "tools") in
    if bool_decide (0 < length openaiTools)%nat
    then <["tool_choice" := RToolChoice "auto"]>
           (<["tools" := RTools openaiTools]> rc)
    else rc
  else rc.

Definition requestConfig (convertToOpenAITools : JValue → list JValue)
    (provider : Provider) (model : string) (messages : list Message)
    (config : option (gmap string JValue)) : gmap string RequestField :=
  fillRequest convertToOpenAITools provider model config
    (<["messages" := RMessages messages]> {["model" := RModel model]}).

Definition requestConfigStream (convertToOpenAITools : JValue → list JValue)
    (provider : Provider) (model : string) (messages : list Message)
    (config : option (gmap string JValue)) : gmap string RequestField :=
  fillRequest convertToOpenAITools provider model config
    (<["stream" := RStream true]>
       (<["messages" := RMessages messages]> {["model" := RModel model]})).

(** The tuning knobs declared by [ContentGeneratorConfig.samplingParams]
    ([contentGenerator.ts], lines 66-74). *)
Definition samplingParamNames : list string :=
  ["top_p"; "top_k"; "repetition_penalty"; "presence_penalty";
   "frequency_penalty"; "temperature"; "max_tokens"].

(** The name a sampling parameter of the source config is to have in the
    provider request: its own, except for [maxOutputTokens]. *)
Definition providerName (k : string) : string :=
  if bool_decide (k = "maxOutputTokens") then "max_tokens" else k.

(** The keys the adapter ever stores in a provider request. *)
Definition requestKeys : list string :=
  ["model"; "messages"; "stream"; "temperature"; "max_tokens"; "top_p";
   "tools"; "tool_choice"].

Definition sampleConfig : option (gmap string JValue) :=
  Some (<["temperature" := JNum 1]>
          (<["maxOutputTokens" := JNum 256]> {["top_k" := JNum 40]})).

(** *** [countTokens], lines 523-532 *)

Definition countedText (contents : option (list Content)) : string :=
  match contents with
  | Some (first :: _) =>
      match parts first with
      | Some ps => orElse (head ps ≫= p_text) ""
      | None => ""
      end
  | _ => ""
  end.

(** [Math.ceil(n / 4)] for a length [n]. *)
Definition ceilQuarter (n : Z) : Z := - ((- n) `div` 4).

Definition countTokens (contents : option (list Content)) : Z :=
  ceilQuarter (Z.of_nat (String.length (countedText contents))).

(** All the text a request carries: the text of every part of every
    content entry, in order. *)
Definition inputText (contents : option (list Content)) : string :=
  match contents with
  | Some cs =>
      foldr String.append ""
        (map (λ c, foldr String.append ""
                     (map (λ p, default "" (p_text p)) (default [] (parts c))))
             cs)
  | None => ""
  end.

(** A request whose whole text is the one part of its one entry. *)
Definition singleText (t : string) : option (list Content) :=
  Some [ {| role := Some "user"; parts := Some [textPart t] |} ].

(** A request whose text comes after an empty first part. *)
Definition textInSecondPart (t : string) : option (list Content) :=
  Some [ {| role := Some "user"; parts := Some [textPart ""; textPart t] |} ].

(** *** [getOpenAI], lines 48-92 *)

Record OpenAIAdapterConfig : Type := {
  ac_provider : Provider;
  ac_model : string;
  ac_baseUrl : string;
  ac_apiKey : option string;
  ac_apiVersion : option string
}.

(** The options handed to [new OpenAI(...)]. *)
Record OpenAIOptions : Type := {
  o_apiKey : string;
  o_baseURL : string;
  o_defaultHeaders : option (list (string * option string))
}.

Definition withV1 (baseUrl : string) : string :=
  if endsWith baseUrl "/v1" then baseUrl
  else stripTrailingSlashes baseUrl +:+ "/v1".

Definition getOpenAI (config : OpenAIAdapterConfig) : OpenAIOptions :=
  let apiKey := orElse (ac_apiKey config) "dummy-key" in
  match ac_provider config with
  | OpenAI =>
      {| o_apiKey := apiKey; o_baseURL := ac_baseUrl config;
         o_defaultHeaders :=
           if truthy (ac_apiVersion config)
           then Some [("OpenAI-Version", ac_apiVersion config)] else None |}
  | DeepSeek =>
      {| o_apiKey := apiKey; o_baseURL := ac_baseUrl config;
         o_defaultHeaders := Some [("X-API-KEY", ac_apiKey config)] |}
  | Ollama =>
      {| o_apiKey := apiKey; o_baseURL := withV1 (ac_baseUrl config);
         o_defaultHeaders := None |}
  | Local =>
      {| o_apiKey := if truthy (ac_apiKey config) then apiKey else "dummy-key";
         o_baseURL := withV1 (ac_baseUrl config);
         o_defaultHeaders := None |}
  end.

End Translator.

(** ** Auth types and the generator factory: [contentGenerator.ts] *)

Inductive AuthType : Type :=
| LOGIN_WITH_GOOGLE
| USE_GEMINI
| USE_VERTEX_AI
| CLOUD_SHELL
| USE_OPENAI.

Global Instance AuthType_eq_dec : EqDecision AuthType.
Proof. solve_decision. Defined.

(** The string value of each member of the [enum]. *)
Definition authTypeValue (a : AuthType) : string :=
  match a with
  | LOGIN_WITH_GOOGLE => "oauth-personal"
  | USE_GEMINI => "gemini-api-key"
  | USE_VERTEX_AI => "vertex-ai"
  | CLOUD_SHELL => "cloud-shell"
  | USE_OPENAI => "openai"
  end.

Module Factory.

(** The fields of [ContentGeneratorConfig] that [createContentGenerator]
    reads. *)
Record ContentGeneratorConfig : Type := {
  model : string;
  apiKey : option string;
  vertexai : option bool;
  authType : option AuthType;
  provider : option string;
  baseURL : option string
}.

(** What [createContentGenerator] returns.  [gcConfig], [sessionId] and
    [httpOptions] are handed on unchanged and left out. *)
Inductive ContentGenerator : Type :=
| OpenAIContentGenerator
    (apiKey : string) (model : string) (provider : option string)
    (baseURL : option string)
| GoogleGenAIModels (apiKey : option string) (vertexai : option bool)
| CodeAssistContentGenerator (authType : AuthType).

(** [inl msg] is [throw new Error(msg)]. *)
Definition Result : Type := string + ContentGenerator.

Definition effectiveProvider (config : ContentGeneratorConfig)
    (env : gmap string string) : string :=
  orElse (provider config) (orElse (env !! "GEMINI_PROVIDER") "gemini").

(** The three provider branches the two revisions share
    (lines 161-215 and 140-197); [None] when none is taken. *)
Definition byProvider (config : ContentGeneratorConfig)
    (env : gmap string string) : option Result :=
  let provider := effectiveProvider config env in
  if bool_decide (provider = "openai") then
    Some (if negb (truthy (apiKey config))
          then inl "OpenAI API key is required"
          else inr (OpenAIContentGenerator
                      (default "" (apiKey config))
                      (orElse (Some (model config))
                         (orElse (env !! "OPENAI_API_MODEL") "gpt-3.5-turbo"))
                      (Some "openai")
                      (Some (orElse (baseURL config)
                               (orElse (env !! "OPENAI_BASE_URL")
                                  "https://api.openai.com/v1")))))
  else if bool_decide (provider = "deepseek") then
    Some (if negb (truthy (apiKey config))
          then inl "DeepSeek API key is required"
          else inr (OpenAIContentGenerator
                      (default "" (apiKey config))
                      (orElse (Some (model config))
                         (orElse (env !! "DEEPSEEK_API_MODEL") "deepseek-chat"))
                      (Some "deepseek")
                      (Some (orElse (baseURL config)
                               (orElse (env !! "DEEPSEEK_API_BASE")
                                  "https://api.deepseek.com/v1")))))
  else if bool_decide (provider = "ollama") then
    let ollamaBaseURL :=
      orElse (baseURL config)
        (orElse (env !! "OLLAMA_BASE_URL") "http://localhost:11434")
      +:+ "/v1" in
    Some (inr (OpenAIContentGenerator
                 ""
                 (orElse (Some (model config))
                    (orElse (env !! "OLLAMA_MODEL") "llama2"))
                 (Some "ollama")
                 (Some ollamaBaseURL)))
  else None.

(** An Ollama config without a key whose base URL already ends in
    [/v1], and one whose base URL does not. *)
Definition ollamaWithSuffix : ContentGeneratorConfig :=
  {| model := "llama3"; apiKey := None; vertexai := None; authType := None;
     provider := Some "ollama";
     baseURL := Some "http://localhost:11434/v1" |}.

Definition ollamaWithoutSuffix : ContentGeneratorConfig :=
  {| model := "llama3"; apiKey := None; vertexai := None; authType := None;
     provider := Some "ollama";
     baseURL := Some "http://localhost:11434" |}.

(** The revision that falls back on [config.authType] (lines 145-265). *)
Module ByAuth.
Definition createContentGenerator (config : ContentGeneratorConfig)
    (env : gmap string string) : Result :=
  match byProvider config env with
  | Some r => r
  | None =>
      match authType config with
      | Some LOGIN_WITH_GOOGLE => inr (CodeAssistContentGenerator LOGIN_WITH_GOOGLE)
      | Some CLOUD_SHELL => inr (CodeAssistContentGenerator CLOUD_SHELL)
      | Some USE_GEMINI | Some USE_VERTEX_AI =>
          inr (GoogleGenAIModels
                 (if bool_decide (apiKey config = Some "") then None
                  else apiKey config)
                 (vertexai config))
      | Some USE_OPENAI =>
          if negb (truthy (apiKey config))
          then inl "OpenAI API key is required"
          else inr (OpenAIContentGenerator
                      (default "" (apiKey config)) (model config)
                      (provider config) (baseURL config))
      | None =>
          inl ("Error creating contentGenerator: Unsupported authType: "
               +:+ "undefined" +:+ " or provider: "
               +:+ effectiveProvider config env)
      end
  end.
End ByAuth.

(** The revision that dispatches on the provider alone (lines 121-224). *)
Module ByProvider.
Definition createContentGenerator (config : ContentGeneratorConfig)
    (env : gmap string string) : Result :=
  match byProvider config env with
  | Some r => r
  | None =>
      if bool_decide (effectiveProvider config env = "gemini") then
        if truthy (apiKey config)
        then inr (GoogleGenAIModels (apiKey config) (Some false))
        else inr (CodeAssistContentGenerator USE_GEMINI)
      else
        inl ("Error creating contentGenerator: Unsupported provider: "
             +:+ effectiveProvider config env)
  end.
End ByProvider.

End Factory.

(** ** Auth resolution: [validateNonInteractiveAuth] *)

Module Auth.

(** Lines 11-25. *)
Definition getAuthTypeFromEnv (env : gmap string string) : option AuthType :=
  if bool_decide (env !! "GOOGLE_GENAI_USE_GCA" = Some "true")
  then Some LOGIN_WITH_GOOGLE
  else if bool_decide (env !! "GOOGLE_GENAI_USE_VERTEXAI" = Some "true")
  then Some USE_VERTEX_AI
  else if truthy (env !! "GEMINI_API_KEY") then Some USE_GEMINI
  else if truthy (env !! "OPENAI_API_KEY") then Some USE_OPENAI
  else None.

(** Lines 33-47: the auth type the function settles on. *)
Definition effectiveAuthType (configuredAuthType : option AuthType)
    (provider : option string) (env : gmap string string) : option AuthType :=
  if truthy provider && negb (bool_decide (provider = Some "gemini")) then
    if bool_decide (provider = Some "openai") then Some USE_OPENAI
    else if bool_decide (provider = Some "deepseek")
            || bool_decide (provider = Some "ollama")
    then Some USE_OPENAI
    else configuredAuthType
  else
    match configuredAuthType with
    | Some a => Some a
    | None => getAuthTypeFromEnv env
    end.

(** How a call ends: [process.exit(1)] after a line on [stderr], or
    [refreshAuth] called with the auth type settled on. *)
Inductive Outcome : Type :=
| Exit (code : Z) (stderr : string)
| RefreshAuth (a : AuthType).

Section Collaborators.
(** [USER_SETTINGS_PATH] of [config/settings.js] and
    [validateAuthMethod] of [config/auth.js], which returns an error
    message or [null]. *)
Variable USER_SETTINGS_PATH : string.
Variable validateAuthMethod : AuthType → option string.

(** Lines 27-66; [provider] is [nonInteractiveConfig.getProvider()]. *)
Definition validateNonInteractiveAuth (configuredAuthType : option AuthType)
    (useExternalAuth : option bool) (provider : option string)
    (env : gmap string string) : Outcome :=
  match effectiveAuthType configuredAuthType provider env with
  | None =>
      Exit 1 ("Please set an Auth method in your " +:+ USER_SETTINGS_PATH
              +:+ " or specify one of the following environment variables before running: GEMINI_API_KEY, OPENAI_API_KEY, GOOGLE_GENAI_USE_VERTEXAI, GOOGLE_GENAI_USE_GCA")
  | Some a =>
      if negb (default false useExternalAuth) then
        match validateAuthMethod a with
        | Some err => Exit 1 err
        | None => RefreshAuth a
        end
      else RefreshAuth a
  end.
End Collaborators.

(** The revision of [validateNonInterActiveAuth.ts]: the config is
    returned as it is, nothing is resolved. *)
Module Simplified.
Definition validateNonInteractiveAuth {Config : Type}
    (configuredAuthType : option AuthType) (useExternalAuth : option bool)
    (nonInteractiveConfig : Config) : Config :=
  nonInteractiveConfig.
End Simplified.

(** [AuthDialog.tsx], lines 29-34. *)
Definition items : list (string * AuthType) :=
  [("Gemini (Google)", USE_GEMINI); ("OpenAI", USE_OPENAI);
   ("DeepSeek", USE_OPENAI); ("Ollama", USE_OPENAI)].

End Auth.

(** ** A reference runtime

    An executable model of the three built-ins on the fragment of JSON
    whose numbers are integer literals and whose strings are made of
    one-byte characters and the two-character escapes.  The properties of
    the adapter are proved for every runtime; this one runs the examples. *)

Module Reference.

Definition isWhitespace (c : ascii) : bool :=
  bool_decide (c = " "%char) || bool_decide (c = "009"%char)
  || bool_decide (c = "010"%char) || bool_decide (c = "013"%char).

Fixpoint skipWhitespace (l : list ascii) : list ascii :=
  match l with
  | c :: l' => if isWhitespace c then skipWhitespace l' else l
  | [] => []
  end.

Definition digitValue (c : ascii) : option Z :=
  let n := Z.of_nat (nat_of_ascii c) in
  if (48 <=? n) && (n <=? 57) then Some (n - 48) else None.

Fixpoint readDigits (acc : Z) (l : list ascii) : Z * list ascii :=
  match l with
  | c :: l' =>
      match digitValue c with
      | Some d => readDigits (10 * acc + d) l'
      | None => (acc, l)
      end
  | [] => (acc, [])
  end.

(** An integer literal: no leading zero, no fraction, no exponent. *)
Definition readInteger (l : list ascii) : option (Z * list ascii) :=
  match l with
  | c :: l' =>
      match digitValue c with
      | Some 0 =>
          match l' with
          | c' :: _ =>
              if is_Some_dec (digitValue c') then None else Some (0, l')
          | [] => Some (0, [])
          end
      | Some d => Some (readDigits d l')
      | None => None
      end
  | [] => None
  end.

Definition afterNumber (l : list ascii) : bool :=
  match l with
  | c :: _ => negb (bool_decide (c = "."%char) || bool_decide (c = "e"%char)
                    || bool_decide (c = "E"%char))
  | [] => true
  end.

Definition readNumber (l : list ascii) : option (Z * list ascii) :=
  let signed :=
    match l with
    | "-"%char :: l' => (λ r, (- fst r, snd r)) <$> readInteger l'
    | _ => readInteger l
    end in
  match signed with
  | Some (n, rest) => if afterNumber rest then Some (n, rest) else None
  | None => None
  end.

Definition unescape (c : ascii) : option ascii :=
  if bool_decide (c = "034"%char) then Some "034"%char
  else if bool_decide (c = "\"%char) then Some "\"%char
  else if bool_decide (c = "/"%char) then Some "/"%char
  else if bool_decide (c = "b"%char) then Some "008"%char
  else if bool_decide (c = "f"%char) then Some "012"%char
  else if bool_decide (c = "n"%char) then Some "010"%char
  else if bool_decide (c = "r"%char) then Some "013"%char
  else if bool_decide (c = "t"%char) then Some "009"%char
  else None.

(** The characters of a string literal after its opening quote. *)
Fixpoint readString (l : list ascii) : option (string * list ascii) :=
  match l with
  | [] => None
  | c :: l' =>
      if bool_decide (c = "034"%char) then Some ("", l')
      else if bool_decide (c = "\"%char) then
        match l' with
        | e :: l'' =>
            match unescape e, readString l'' with
            | Some c', Some (s, rest) => Some (String c' s, rest)
            | _, _ => None
            end
        | [] => None
        end
      else if (Z.of_nat (nat_of_ascii c) <? 32) then None
      else
        match readString l' with
        | Some (s, rest) => Some (String c s, rest)
        | None => None
        end
  end.

Definition startsWith (p : string) (l : list ascii) : option (list ascii) :=
  if isPrefix (list_ascii_of_string p) l
  then Some (drop (String.length p) l) else None.

Section Composite.
Variable readValue : list ascii → option (JValue * list ascii).

(** The elements of an array after [[], up to and including []]. *)
Fixpoint readElements (fuel : nat) (l : list ascii)
  : option (list JValue * list ascii) :=
  match fuel with
  | O => None
  | S fuel' =>
      match readValue l with
      | Some (v, rest) =>
          match skipWhitespace rest with
          | ","%char :: rest' =>
              match readElements fuel' rest' with
              | Some (vs, rest'') => Some (v :: vs, rest'')
              | None => None
              end
          | "]"%char :: rest' => Some ([v], rest')
          | _ => None
          end
      | None => None
      end
  end.

(** The members of an object after [{], up to and including [}]; a
    repeated key keeps its first position and its last value. *)
Fixpoint readMembers (fuel : nat) (acc : list (string * JValue))
    (l : list ascii) : option (list (string * JValue) * list ascii) :=
  match fuel with
  | O => None
  | S fuel' =>
      match skipWhitespace l with
      | "034"%char :: l1 =>
          match readString l1 with
          | Some (k, l2) =>
              match skipWhitespace l2 with
              | ":"%char :: l3 =>
                  match readValue l3 with
                  | Some (v, l4) =>
                      match skipWhitespace l4 with
                      | ","%char :: l5 => readMembers fuel' (jset k v acc) l5
                      | "}"%char :: l5 => Some (jset k v acc, l5)
                      | _ => None
                      end
                  | None => None
                  end
              | _ => None
              end
          | None => None
          end
      | _ => None
      end
  end.
End Composite.

Fixpoint readValue (fuel : nat) (l : list ascii) : option (JValue * list ascii) :=
  match fuel with
  | O => None
  | S fuel' =>
      match skipWhitespace l with
      | "{"%char :: l1 =>
          match skipWhitespace l1 with
          | "}"%char :: l2 => Some (JObj [], l2)
          | _ =>
              match readMembers (readValue fuel') (length l1) [] l1 with
              | Some (fields, rest) => Some (JObj fields, rest)
              | None => None
              end
          end
      | "["%char :: l1 =>
          match skipWhitespace l1 with
          | "]"%char :: l2 => Some (JArr [], l2)
          | _ =>
              match readElements (readValue fuel') (length l1) l1 with
              | Some (vs, rest) => Some (JArr vs, rest)
              | None => None
              end
          end
      | "034"%char :: l1 =>
          match readString l1 with
          | Some (s, rest) => Some (JStr s, rest)
          | None => None
          end
      | l0 =>
          match startsWith "true" l0, startsWith "false" l0,
                startsWith "null" l0 with
          | Some rest, _, _ => Some (JBool true, rest)
          | _, Some rest, _ => Some (JBool false, rest)
          | _, _, Some rest => Some (JNull, rest)
          | _, _, _ =>
              match readNumber l0 with
              | Some (n, rest) => Some (JNum n, rest)
              | None => None
              end
          end
      end
  end.

Definition parse (s : string) : option JValue :=
  match readValue (S (String.length s)) (list_ascii_of_string s) with
  | Some (v, rest) =>
      match skipWhitespace rest with
      | [] => Some v
      | _ :: _ => None
      end
  | None => None
  end.

(** The text of a string literal, quotes included. *)
Fixpoint quoteChars (s : string) : string :=
  match s with
  | EmptyString => String "034"%char ""
  | String c s' =>
      (if bool_decide (c = "034"%char) then String "\"%char (String "034"%char "")
       else if bool_decide (c = "\"%char) then "\\"
       else if bool_decide (c = "010"%char) then "\n"
       else if bool_decide (c = "013"%char) then "\r"
       else if bool_decide (c = "009"%char) then "\t"
       else if bool_decide (c = "008"%char) then "\b"
       else if bool_decide (c = "012"%char) then "\f"
       else String c "") +:+ quoteChars s'
  end.

Definition quote (s : string) : string := String "034"%char (quoteChars s).

Definition joinWith (sep : string) (l : list string) : string :=
  match l with
  | [] => ""
  | x :: rest => foldl (λ acc y, acc +:+ sep +:+ y) x rest
  end.

(** [JSON.stringify] below the top level: [undefined] is [null] in an
    array and leaves its key out of an object. *)
Fixpoint stringifyValue (v : JValue) : string :=
  match v with
  | JUndefined | JNull => "null"
  | JBool true => "true"
  | JBool false => "false"
  | JNum n => pretty n
  | JStr s => quote s
  | JArr items => "[" +:+ joinWith "," (map stringifyValue items) +:+ "]"
  | JObj fields =>
      "{" +:+
      joinWith ","
        ((fix members (fs : list (string * JValue)) : list string :=
            match fs with
            | [] => []
            | (k, JUndefined) :: fs' => members fs'
            | (k, x) :: fs' =>
                (quote k +:+ ":" +:+ stringifyValue x) :: members fs'
            end) fields)
      +:+ "}"
  end.

Definition stringify (v : JValue) : option string :=
  match v with
  | JUndefined => None
  | _ => Some (stringifyValue v)
  end.

(** [String(v)]. *)
Fixpoint toString (v : JValue) : string :=
  match v with
  | JUndefined => "undefined"
  | JNull => "null"
  | JBool true => "true"
  | JBool false => "false"
  | JNum n => pretty n
  | JStr s => s
  | JArr items =>
      joinWith ","
        (map (λ x, match x with
                   | JUndefined | JNull => ""
                   | _ => toString x
                   end) items)
  | JObj _ => "[object Object]"
  end.

Definition runtime : JSRuntime :=
  {| JSON_parse := parse; JSON_stringify := stringify; js_String := toString |}.

End Reference.

(** ** Views of the stream used to state its properties *)

Module StreamView.
Import Stream.

(** The fragment the buffer holds for index [i]: the one [findIndex]
    of line 409 stops at. *)
Definition fragmentAt (i : Z) (buffer : list BufferedToolCall)
  : option BufferedToolCall :=
  match list_find (λ tc, b_index tc = i) buffer with
  | Some (_, tc) => Some tc
  | None => None
  end.

Definition argumentsAt (i : Z) (buffer : list BufferedToolCall) : string :=
  match fragmentAt i buffer with
  | Some tc => b_arguments tc
  | None => ""
  end.

Definition nameAt (i : Z) (buffer : list BufferedToolCall) : string :=
  match fragmentAt i buffer with
  | Some tc => b_name tc
  | None => ""
  end.

(** The deltas of [l] that carry index [i], in arrival order. *)
Definition deltasAt (i : Z) (l : list ToolCall) : list ToolCall :=
  filter (λ tc, tc_index tc = i) l.

(** Their pieces of arguments text, joined. *)
Definition argumentsPieces (i : Z) (l : list ToolCall) : string :=
  foldr String.append "" (map (λ tc, orElse (fnArguments tc) "") (deltasAt i l)).

(** The last non-empty name among [names], or [start] if there is none. *)
Definition lastTruthy (start : string) (names : list (option string)) : string :=
  foldl (λ acc n, if truthy n then default "" n else acc) start names.

Definition indexes (buffer : list BufferedToolCall) : list Z :=
  map b_index buffer.

(** The [text] fields of the responses, joined. *)
Definition emittedText (rs : list GenerateContentResponse) : string :=
  foldr String.append "" (map r_text rs).

(** The text deltas of a stream, joined. *)
Definition streamText (chunks : list Chunk) : string :=
  foldr String.append "" (map (λ chunk, orElse (chunkContent chunk) "") chunks).

(** A chunk that ends the reply for its length and brings a short text. *)
Definition lengthChunk : Chunk :=
  {| choices :=
       [ {| delta := Some {| tool_calls := None; content := Some "tail" |};
            finish_reason := Some "length" |} ] |}.

(** A text stream that ends without a completion signal. *)
Definition unfinishedStream : list Chunk :=
  [ textChunk "Hello, "; textChunk "world"; textChunk "!"; textChunk " Bye" ].

(** Text arriving after the first tool-call delta. *)
Definition heldBackStream : list Chunk :=
  [ argumentsChunk (Some "f") (Some "call_1") "{}" None;
    textChunk "a text of more than ten characters";
    textChunk "and some more" ].

(** A reply with two complete tool calls. *)
Definition twoCalls : list ToolCall :=
  [ {| tc_index := 0;
       tc_function := Some {| tcf_name := Some "f";
                              tcf_arguments := Some (dq "{'x':1}") |};
       tc_id := Some "call_1" |};
    {| tc_index := 1;
       tc_function := Some {| tcf_name := Some "g"; tcf_arguments := None |};
       tc_id := Some "call_2" |} ].

Definition replyOf (l : list ToolCall) (text : option string) (reason : string)
  : Completion.ChatCompletion :=
  {| Completion.cc_choices :=
       [ {| Completion.message :=
              {| Completion.msg_content := text;
                 Completion.msg_tool_calls := Some l |};
            Completion.cc_finish_reason := Some reason |} ] |}.

End StreamView.

(** ** The rest of the adapter: constructor, type names, [embedContent] *)

Module Adapter.
Import Translator.

(** Lines 33-45: what the constructor does to [process.env]. *)
Definition proxyVars : list string :=
  ["http_proxy"; "https_proxy"; "HTTP_PROXY"; "HTTPS_PROXY"; "ALL_PROXY";
   "all_proxy"].

Definition clearVars (vars : list string) (env : gmap string string)
  : gmap string string :=
  foldl (λ e varName, if truthy (e !! varName) then delete varName e else e)
    env vars.

(** [verify] is [this.config.verify]. *)
Definition constructorEnv (verify : option bool) (env : gmap string string)
  : gmap string string :=
  let env' := clearVars proxyVars env in
  if bool_decide (verify = Some false)
  then <["NODE_TLS_REJECT_UNAUTHORIZED" := "0"]> env'
  else env'.

(** [s.toLowerCase()] on the code units below 256: the letters [A]-[Z]
    and the capital letters of Latin-1 (all of 192-222 but the
    multiplication sign 215) move up by 32. *)
Definition lowerChar (c : ascii) : ascii :=
  let n := nat_of_ascii c in
  if ((65 <=? n) && (n <=? 90)
      || (192 <=? n) && (n <=? 222) && negb (n =? 215))%nat
  then ascii_of_nat (n + 32) else c.

Fixpoint toLowerCase (s : string) : string :=
  match s with
  | EmptyString => EmptyString
  | String c s' => String (lowerChar c) (toLowerCase s')
  end.

(** Lines 205-221. *)
Definition convertGeminiTypeToJsonSchema (type : string) : string :=
  if bool_decide (type = "STRING") then "string"
  else if bool_decide (type = "NUMBER") then "number"
  else if bool_decide (type = "BOOLEAN") then "boolean"
  else if bool_decide (type = "ARRAY") then "array"
  else if bool_decide (type = "OBJECT") then "object"
  else toLowerCase type.

(** A run of [n] slashes. *)
Definition slashes (n : nat) : string :=
  string_of_list_ascii (repeat "/"%char n).

Section WithRuntime.
Context `{RT : JSRuntime}.

(** Lines 266-298: the request [generateContent] sends, from the
    request's [contents] and [config]. *)
Definition generateContentRequest (convertToOpenAITools : JValue → list JValue)
    (provider : Provider) (model : string)
    (contents : option (list Content))
    (config : option (gmap string JValue)) : gmap string RequestField :=
  requestConfig convertToOpenAITools provider model (toMessages contents)
    config.

(** Lines 360-393: the request [generateContentStream] sends. *)
Definition generateContentStreamRequest
    (convertToOpenAITools : JValue → list JValue)
    (provider : Provider) (model : string)
    (contents : option (list Content))
    (config : option (gmap string JValue)) : gmap string RequestField :=
  requestConfigStream convertToOpenAITools provider model (toMessages contents)
    config.

End WithRuntime.

(** [l.join(sep)]: an [undefined] element counts as the empty string. *)
Fixpoint join (sep : string) (l : list (option string)) : string :=
  match l with
  | [] => ""
  | x :: rest =>
      default "" x +:+
      match rest with
      | [] => ""
      | _ :: _ => sep +:+ join sep rest
      end
  end.

(** Lines 536-538: the [input] of [embedContent]. *)
Definition embedInput (contents : option (list Content)) : string :=
  match contents with
  | Some cs =>
      join (String "010"%char "")
        (map (λ c, Some match parts c with
                        | Some ps => join "" (map p_text ps)
                        | None => ""
                        end) cs)
  | None => ""
  end.

(** An entry whose [functionCall] field holds [null]. *)
Definition nullCallContent : Content :=
  {| role := Some "user";
     parts := Some [ {| p_text := Some "plain text";
                        p_functionCall := Some JNull;
                        p_functionResponse := None |} ] |}.

(** A user turn followed by a tool result. *)
Definition toolConversation : list Content :=
  [ {| role := Some "user"; parts := Some [textPart "run the tool"] |};
    toolResultContent ].



Definition proxiedEnv : gmap string string :=
  <["HTTPS_PROXY" := "http://proxy:3128"]>
    (<["all_proxy" := ""]> {["PATH" := "/usr/bin"]}).

Definition twoEntries : option (list Content) :=
  Some [ {| role := Some "user";
            parts := Some [textPart "ab"; textPart "cd"] |};
         {| role := Some "model"; parts := Some [textPart "efg"] |} ].

End Adapter.

(** ** [createContentGeneratorConfig], both revisions *)

Module ConfigBuilder.
Import Factory.

(** What the function reads of the session [Config]: [(config as
    any).model], [getModel()] and [getProvider()].  The values of
    [getProxy()], [getEnableOpenAILogging()], the timeout, the retry
    count and [getSamplingParams()] are copied to fields that
    [createContentGenerator] does not read, and are left out with them. *)
Record SessionConfig : Type := {
  sc_model : option string;
  sc_getModel : option string;
  sc_getProvider : option string
}.

(** [process.env.K || undefined] *)
Definition envVar (env : gmap string string) (k : string) : option string :=
  if truthy (env !! k) then env !! k else None.

Section WithDefaultModel.
(** [DEFAULT_GEMINI_MODEL] of [config/models.js]. *)
Variable DEFAULT_GEMINI_MODEL : string.

Definition effectiveModel (config : SessionConfig) : string :=
  orElse (sc_model config) (orElse (sc_getModel config) DEFAULT_GEMINI_MODEL).

Definition initialConfig (config : SessionConfig) (authType : option AuthType)
  : ContentGeneratorConfig :=
  {| model := effectiveModel config; apiKey := None; vertexai := None;
     authType := authType; provider := sc_getProvider config;
     baseURL := None |}.

(** The revision that sets the key by provider (lines 78-119). *)
Definition createContentGeneratorConfig_byProvider (config : SessionConfig)
    (authType : option AuthType) (env : gmap string string)
  : ContentGeneratorConfig :=
  let c := initialConfig config authType in
  let provider := orElse (sc_getProvider config) "gemini" in
  if bool_decide (provider = "openai") && truthy (env !! "OPENAI_API_KEY") then
    {| model := model c; apiKey := envVar env "OPENAI_API_KEY";
       vertexai := vertexai c; authType := Factory.authType c;
       provider := Factory.provider c; baseURL := env !! "OPENAI_BASE_URL" |}
  else if bool_decide (provider = "deepseek")
          && truthy (env !! "DEEPSEEK_API_KEY") then
    {| model := model c; apiKey := envVar env "DEEPSEEK_API_KEY";
       vertexai := vertexai c; authType := Factory.authType c;
       provider := Factory.provider c; baseURL := env !! "DEEPSEEK_API_BASE" |}
  else if bool_decide (provider = "ollama") then
    {| model := model c; apiKey := apiKey c; vertexai := vertexai c;
       authType := Factory.authType c; provider := Factory.provider c;
       baseURL := Some (orElse (env !! "OLLAMA_BASE_URL")
                          "http://localhost:11434") |}
  else if bool_decide (provider = "gemini")
          && truthy (env !! "GEMINI_API_KEY") then
    {| model := model c; apiKey := envVar env "GEMINI_API_KEY";
       vertexai := Some false; authType := Factory.authType c;
       provider := Factory.provider c; baseURL := baseURL c |}
  else c.

(** The revision that sets the key by auth type (lines 78-143).  The call
    of [getEffectiveModel], whose result is dropped, is left out. *)
Definition createContentGeneratorConfig_byAuth (config : SessionConfig)
    (authType : option AuthType) (env : gmap string string)
  : ContentGeneratorConfig :=
  let c := initialConfig config authType in
  match authType with
  | Some LOGIN_WITH_GOOGLE | Some CLOUD_SHELL => c
  | Some USE_GEMINI =>
      if truthy (env !! "GEMINI_API_KEY") then
        {| model := model c; apiKey := envVar env "GEMINI_API_KEY";
           vertexai := Some false; authType := Factory.authType c;
           provider := Factory.provider c; baseURL := baseURL c |}
      else c
  | Some USE_VERTEX_AI =>
      if truthy (env !! "GOOGLE_API_KEY")
         || (truthy (env !! "GOOGLE_CLOUD_PROJECT")
             && truthy (env !! "GOOGLE_CLOUD_LOCATION")) then
        {| model := model c; apiKey := envVar env "GOOGLE_API_KEY";
           vertexai := Some true; authType := Factory.authType c;
           provider := Factory.provider c; baseURL := baseURL c |}
      else c
  | Some USE_OPENAI =>
      if truthy (env !! "OPENAI_API_KEY") then
        {| model :=
             if bool_decide (model c = "")
                || bool_decide (model c = DEFAULT_GEMINI_MODEL)
             then orElse (env !! "OPENAI_MODEL") DEFAULT_GEMINI_MODEL
             else model c;
           apiKey := env !! "OPENAI_API_KEY";
           vertexai := vertexai c; authType := Factory.authType c;
           provider := Factory.provider c; baseURL := baseURL c |}
      else c
  | None => c
  end.

End WithDefaultModel.

Definition openaiSession : SessionConfig :=
  {| sc_model := None; sc_getModel := Some "gpt-4o";
     sc_getProvider := Some "openai" |}.

Definition defaultSession : SessionConfig :=
  {| sc_model := None; sc_getModel := None; sc_getProvider := None |}.

End ConfigBuilder.

(** * Properties *)

Example parse_ab :
  Reference.parse (dq "{'a':1,'b':2}") = Some (JObj [("a", JNum 1); ("b", JNum 2)]).
Proof. vm_compute. reflexivity. Qed.
Example parse_nested :
  Reference.parse (dq " { 'k' : [1, -20, true, null, 'x\ny'], 'k': {} } ")
  = Some (JObj [("k", JObj [])]).
Proof. vm_compute. reflexivity. Qed.
Example parse_partial : Reference.parse (dq "{'a':") = None.
Proof. vm_compute. reflexivity. Qed.
Example parse_trailing : Reference.parse "1 2" = None.
Proof. vm_compute. reflexivity. Qed.
Example stringify_ex :
  Reference.stringify (JObj [("a", JNum (-1)); ("u", JUndefined); ("b", JArr [JStr "x"; JNull])])
  = Some (dq "{'a':-1,'b':['x',null]}").
Proof. vm_compute. reflexivity. Qed.

(** ** The streaming normalizer *)

Module StreamFacts.
Import Stream.

Section WithRuntime.
Context `{RT : JSRuntime}.

Lemma step_done s chunk :
  isDone chunk = true →
  step s chunk =
    (initial,
     Some (buildResponse (accumulatedText (absorb s chunk))
             (flushFunctionCalls (toolCallsBuffer (absorb s chunk)))
             (chunkFinish chunk))).
Proof. intros Hd. unfold step. rewrite Hd. reflexivity. Qed.

Lemma step_in_progress s chunk :
  isDone chunk = false →
  hasToolCalls (absorb s chunk) = true →
  step s chunk = (absorb s chunk, None).
Proof. intros Hd Hh. unfold step. rewrite Hd, Hh. reflexivity. Qed.

Lemma step_not_done_buffer s chunk :
  isDone chunk = false →
  toolCallsBuffer (fst (step s chunk)) = toolCallsBuffer (absorb s chunk)
  ∧ hasToolCalls (fst (step s chunk)) = hasToolCalls (absorb s chunk).
Proof.
  intros Hd. unfold step. rewrite Hd. simpl.
  destruct (negb _ && _); [|done].
  destruct (10 <=? _); done.
Qed.

Lemma step_emits_clears_text s chunk r :
  snd (step s chunk) = Some r → accumulatedText (fst (step s chunk)) = "".
Proof.
  unfold step.
  destruct (isDone chunk || _); [|discriminate].
  destruct (isDone chunk || (10 <=? _)); [|discriminate].
  intros _. simpl. unfold reset. by destruct (isDone chunk).
Qed.

Lemma run_cons s chunk rest :
  run s (chunk :: rest)
  = option_list (snd (step s chunk)) ++ run (fst (step s chunk)) rest.
Proof. simpl. by destruct (step s chunk). Qed.

Lemma absorb_buffer s chunk :
  toolCallsBuffer (absorb s chunk)
  = mergeToolCalls (toolCallsBuffer s) (default [] (chunkToolCalls chunk)).
Proof. unfold absorb. simpl. by destruct (chunkToolCalls chunk). Qed.

Lemma mergeToolCalls_app buffer l1 l2 :
  mergeToolCalls buffer (l1 ++ l2)
  = mergeToolCalls (mergeToolCalls buffer l1) l2.
Proof. apply foldl_app. Qed.

(** While no chunk signals completion the buffer holds the merge of
    every delta seen, whatever was emitted on the way. *)
Lemma finalState_buffer chunks : ∀ s,
  Forall (λ chunk, isDone chunk = false) chunks →
  toolCallsBuffer (finalState s chunks)
  = mergeToolCalls (toolCallsBuffer s) (allToolCalls chunks).
Proof.
  induction chunks as [|chunk rest IH]; intros s Hnd; [done|].
  apply Forall_cons in Hnd as [Hc Hrest].
  unfold finalState, allToolCalls in *. simpl.
  rewrite IH by done.
  rewrite (proj1 (step_not_done_buffer s chunk Hc)), absorb_buffer.
  by rewrite mergeToolCalls_app.
Qed.

Lemma run_app s chunks1 chunks2 :
  run s (chunks1 ++ chunks2)
  = run s chunks1 ++ run (finalState s chunks1) chunks2.
Proof.
  revert s. induction chunks1 as [|chunk rest IH]; intros s; [done|].
  rewrite <- app_comm_cons, !run_cons, IH, <- app_assoc. reflexivity.
Qed.

(** C1. A tool call whose arguments text for index 0 arrives as the
    three pieces [{"a":], [1,"b":] and [2}], followed by a chunk with
    finish reason [tool_calls], makes the generator yield exactly one
    response, and [functionCalls[0].args] of that response is the
    object the runtime parses the joined text [{"a":1,"b":2}] to, that
    is [{a: 1, b: 2}].  This holds whatever names, ids and text the
    chunks carry besides. *)
Theorem C1_reassembly
    (n1 n2 n3 i1 i2 i3 t1 t2 t3 t4 : option string) :
  JSON_parse (dq "{'a':1,'b':2}") = Some (JObj [("a", JNum 1); ("b", JNum 2)]) →
  ∃ r,
    gen [ argumentsChunk n1 i1 (dq "{'a':") t1;
          argumentsChunk n2 i2 (dq "1,'b':") t2;
          argumentsChunk n3 i3 "2}" t3;
          finishChunk "tool_calls" t4 ] = [r]
    ∧ ∃ fc others,
        functionCalls r = Some (fc :: others)
        ∧ fc_args fc = JObj [("a", JNum 1); ("b", JNum 2)].
Proof.
  intros Hparse. unfold gen.
  rewrite run_cons, step_in_progress by reflexivity.
  rewrite run_cons, step_in_progress by reflexivity.
  rewrite run_cons, step_in_progress by reflexivity.
  rewrite run_cons, step_done by reflexivity.
  eexists. split; [reflexivity|].
  eexists _, []. split; [reflexivity|].
  vm_compute in Hparse. vm_compute. rewrite Hparse. reflexivity.
Qed.

Lemma allToolCalls_snoc chunks chunk :
  allToolCalls (chunks ++ [chunk])
  = allToolCalls chunks ++ default [] (chunkToolCalls chunk).
Proof.
  unfold allToolCalls. rewrite map_app, concat_app. simpl.
  by rewrite app_nil_r.
Qed.

Lemma completion_flush s chunks final :
  Forall (λ chunk, isDone chunk = false) chunks →
  isDone final = true →
  ∃ r, run s (chunks ++ [final]) = run s chunks ++ [r]
       ∧ functionCalls r
         = flushFunctionCalls
             (mergeToolCalls (toolCallsBuffer s)
                (allToolCalls (chunks ++ [final]))).
Proof.
  intros Hnd Hd. rewrite run_app, run_cons, step_done by done.
  eexists. split; [reflexivity|]. cbv [buildResponse functionCalls].
  by rewrite absorb_buffer, finalState_buffer, allToolCalls_snoc,
    mergeToolCalls_app.
Qed.

Lemma step_emitted s chunk r :
  snd (step s chunk) = Some r →
  r = buildResponse (accumulatedText (absorb s chunk))
        (flushFunctionCalls (toolCallsBuffer (absorb s chunk)))
        (chunkFinish chunk).
Proof.
  unfold step.
  destruct (isDone chunk || _); [|discriminate].
  destruct (isDone chunk || (10 <=? _)); [|discriminate].
  simpl. congruence.
Qed.

Lemma mergeToolCall_length buffer toolCall :
  (length buffer ≤ length (mergeToolCall buffer toolCall))%nat.
Proof.
  unfold mergeToolCall.
  destruct (list_find _ buffer) as [[i existing]|].
  - by rewrite length_insert.
  - rewrite length_app. lia.
Qed.

Lemma mergeToolCalls_length l : ∀ buffer,
  (length buffer ≤ length (mergeToolCalls buffer l))%nat.
Proof.
  induction l as [|toolCall l IH]; intros buffer; [done|].
  unfold mergeToolCalls in *. simpl.
  etrans; [apply (mergeToolCall_length buffer toolCall)|apply IH].
Qed.

(** In every state the generator reaches, fragments are held only while
    the in-progress flag is raised. *)
Lemma finalState_invariant chunks : ∀ s,
  (hasToolCalls s = false → toolCallsBuffer s = []) →
  hasToolCalls (finalState s chunks) = false →
  toolCallsBuffer (finalState s chunks) = [].
Proof.
  induction chunks as [|chunk rest IH]; intros s Hs; [exact Hs|].
  unfold finalState in *. simpl. apply IH.
  destruct (isDone chunk) eqn:Hd.
  - by rewrite step_done.
  - destruct (step_not_done_buffer s chunk Hd) as [-> ->].
    unfold absorb. simpl. destruct (chunkToolCalls chunk); [done|exact Hs].
Qed.

(** So an interim flush, one made by a chunk that does not signal
    completion, never carries function calls. *)
Lemma interim_flush_has_no_calls chunks chunk r :
  isDone chunk = false →
  snd (step (finalState initial chunks) chunk) = Some r →
  functionCalls r = None.
Proof.
  intros Hd Hr. pose proof (step_emitted _ _ _ Hr) as ->.
  unfold step in Hr. rewrite Hd in Hr.
  destruct (hasToolCalls (absorb (finalState initial chunks) chunk)) eqn:Hh;
    [discriminate Hr|].
  clear Hr. cbv [buildResponse functionCalls].
  unfold absorb in Hh |- *. simpl in Hh |- *.
  destruct (chunkToolCalls chunk); [discriminate Hh|].
  by rewrite (finalState_invariant chunks initial (λ _, eq_refl) Hh).
Qed.

Lemma orElse_self s : orElse (Some s) "" = s.
Proof. unfold orElse. by case_bool_decide. Qed.

Lemma parseArgs_failure a : JSON_parse a = None → parseArgs (Some a) = JObj [].
Proof.
  intros H. unfold parseArgs.
  destruct (truthy (Some a)); [simpl; rewrite H|]; reflexivity.
Qed.

Lemma parseArgs_success a v :
  a ≠ "" → JSON_parse a = Some v → parseArgs (Some a) = v.
Proof.
  intros Ha H. unfold parseArgs, truthy. simpl. rewrite H.
  by rewrite bool_decide_eq_false_2.
Qed.

Lemma flushFunctionCalls_lookup buffer i tc :
  buffer !! i = Some tc →
  flushFunctionCalls buffer ≫= (λ fcs, fcs !! i) = Some (toFunctionCall tc).
Proof.
  intros Hi. destruct buffer as [|tc0 rest]; [done|].
  unfold flushFunctionCalls. simpl.
  change (toFunctionCall tc0 :: map toFunctionCall rest)
    with (toFunctionCall <$> (tc0 :: rest)).
  by rewrite list_lookup_fmap, Hi.
Qed.

(** C7. At every flush the response lists one function call per
    accumulated fragment, with the fragment's name and id; its [args]
    is the empty object when the runtime fails to parse the fragment's
    arguments text, and the parsed value when it succeeds.  The flush
    itself is never given up: a chunk that signals completion always
    yields its response, and the chunks after an emission are consumed
    from the state the emission leaves.  The non-streaming reply
    degrades a tool call in the same way. *)
Theorem C7_parse_failure_degrades :
  (∀ s chunk r,
     snd (step s chunk) = Some r →
     ∀ i tc,
       toolCallsBuffer (absorb s chunk) !! i = Some tc →
       ∃ fc, functionCalls r ≫= (λ fcs, fcs !! i) = Some fc
             ∧ fc_name fc = b_name tc
             ∧ fc_id fc = b_id tc
             ∧ (JSON_parse (b_arguments tc) = None → fc_args fc = JObj [])
             ∧ (∀ v, b_arguments tc ≠ "" →
                     JSON_parse (b_arguments tc) = Some v → fc_args fc = v))
  ∧ (∀ s chunk, isDone chunk = true → is_Some (snd (step s chunk)))
  ∧ (∀ s chunk r rest,
       snd (step s chunk) = Some r →
       run s (chunk :: rest) = r :: run (fst (step s chunk)) rest)
  ∧ (∀ tc a,
       fnArguments tc = Some a → JSON_parse a = None →
       fc_args (Completion.toFunctionCall tc) = JObj []).
Proof.
  split.
  { intros s chunk r Hr i tc Hi.
    apply step_emitted in Hr as ->. simpl.
    exists (toFunctionCall tc).
    split; [by apply flushFunctionCalls_lookup|].
    split; [apply orElse_self|].
    split; [reflexivity|].
    split; [apply parseArgs_failure|].
    intros v. apply parseArgs_success. }
  split.
  { intros s chunk Hd. rewrite step_done by done. simpl. eauto. }
  split.
  { intros s chunk r rest Hr. by rewrite run_cons, Hr. }
  intros tc a Ha Hp. unfold Completion.toFunctionCall. simpl.
  rewrite Ha. by apply parseArgs_failure.
Qed.

(** C10. At a flush with two or more accumulated fragments, the
    top-level [functionCalls] lists the call of every fragment, while
    [candidates[0].content.parts] is the text part, if the text is not
    empty, followed by one [functionCall] part made of the name and
    args of [functionCalls[0]]; no other [functionCall] part is in
    [parts]. *)
Theorem C10_parts_hold_first_call_only s chunk r tc0 tc1 more :
  snd (step s chunk) = Some r →
  toolCallsBuffer (absorb s chunk) = tc0 :: tc1 :: more →
  functionCalls r = Some (map toFunctionCall (tc0 :: tc1 :: more))
  ∧ ∃ candidate,
      candidates r = [candidate]
      ∧ c_parts candidate
        = (if bool_decide (accumulatedText (absorb s chunk) = "") then []
           else [TextPart (accumulatedText (absorb s chunk))])
          ++ [FunctionCallPart (fc_name (toFunctionCall tc0))
                (fc_args (toFunctionCall tc0))]
      ∧ filter isFunctionCallPart (c_parts candidate)
        = [FunctionCallPart (fc_name (toFunctionCall tc0))
             (fc_args (toFunctionCall tc0))].
Proof.
  intros Hr Hb. apply step_emitted in Hr as ->. rewrite Hb.
  split; [reflexivity|].
  eexists. split; [reflexivity|]. simpl.
  unfold buildParts. simpl.
  case_bool_decide; simpl; split; reflexivity.
Qed.

End WithRuntime.

Lemma C1_reassembly_witness :
  ∃ r, gen (RT := Reference.runtime)
         [ argumentsChunk (Some "f") (Some "call_1") (dq "{'a':") None;
           argumentsChunk None None (dq "1,'b':") None;
           argumentsChunk None None "2}" None;
           finishChunk "tool_calls" None ] = [r]
       ∧ ∃ fc others,
           functionCalls r = Some (fc :: others)
           ∧ fc_args fc = JObj [("a", JNum 1); ("b", JNum 2)].
Proof.
  apply (C1_reassembly (RT := Reference.runtime)). vm_compute. reflexivity.
Defined.

(** The run of that stream: the interim text response, then the response
    of the completion flush with the arguments of both pieces. *)
Example interimStream_run :
  gen (RT := Reference.runtime)
    (interimStream ++ [finishChunk "tool_calls" None])
  = [ buildResponse "Hello, world" None None;
      buildResponse "more"
        (Some [ {| fc_name := "f";
                   fc_args := JObj [("a", JNum 1); ("b", JNum 2)];
                   fc_id := Some "call_1" |} ])
        (Some "tool_calls") ].
Proof. vm_compute. reflexivity. Qed.

(** Pieces are joined by index, and the calls stay in the order in which
    their indexes were first seen. *)
Example interleavedStream_run :
  gen (RT := Reference.runtime) interleavedStream
  = [ buildResponse ""
        (Some [ {| fc_name := "g"; fc_args := JArr [JNum 1; JNum 2];
                   fc_id := Some "call_2" |};
                {| fc_name := "f"; fc_args := JObj [("x", JBool true)];
                   fc_id := Some "call_1" |} ])
        (Some "tool_calls") ].
Proof. vm_compute. reflexivity. Qed.

Lemma C7_parse_failure_degrades_witness :
  ∃ fc,
    functionCalls
      (buildResponse ""
         (flushFunctionCalls (RT := Reference.runtime)
            (toolCallsBuffer (absorb initial malformedChunk)))
         (Some "stop"))
    ≫= (λ fcs, fcs !! 0%nat) = Some fc
    ∧ fc_name fc = "f" ∧ fc_id fc = Some "call_1" ∧ fc_args fc = JObj [].
Proof.
  destruct (proj1 (C7_parse_failure_degrades (RT := Reference.runtime))
              initial malformedChunk _ eq_refl 0%nat _ eq_refl)
    as (fc & Hfc & Hname & Hid & Hfail & _).
  exists fc. split; [exact Hfc|]. split; [exact Hname|].
  split; [exact Hid|]. apply Hfail. vm_compute. reflexivity.
Defined.

Lemma C10_parts_hold_first_call_only_witness :
  ∃ r, snd (step (RT := Reference.runtime) initial twoCallsChunk) = Some r
    ∧ functionCalls r
      = Some [ {| fc_name := "f"; fc_args := JObj [("x", JNum 1)];
                  fc_id := Some "call_1" |};
               {| fc_name := "g"; fc_args := JArr [];
                  fc_id := Some "call_2" |} ]
    ∧ ∃ candidate,
        candidates r = [candidate]
        ∧ c_parts candidate
          = [TextPart "hi"; FunctionCallPart "f" (JObj [("x", JNum 1)])].
Proof.
  eexists. split; [reflexivity|].
  destruct (C10_parts_hold_first_call_only (RT := Reference.runtime)
              initial twoCallsChunk _ _ _ _ eq_refl eq_refl)
    as (Hfcs & candidate & Hc & Hparts & _).
  split; [exact Hfcs|]. exists candidate. split; [exact Hc|exact Hparts].
Defined.

End StreamFacts.

(** ** The request translator *)

Module TranslatorFacts.
Import Translator.

Section WithRuntime.
Context `{RT : JSRuntime}.

(** [find] returns the first part that carries a [functionResponse]. *)
Lemma findFunctionResponse_is_Some (ps : list Part) p :
  p ∈ ps → is_Some (p_functionResponse p) →
  is_Some (findFunctionResponse ps).
Proof.
  intros Hin Hp. unfold findFunctionResponse.
  destruct (list_find_elem_of (λ p, is_Some (p_functionResponse p)) ps p
              Hin Hp) as [[i q] Hq].
  rewrite Hq. by apply list_find_Some in Hq as (_ & Hq & _).
Qed.

(** C6. In the translation of a list of contents, an entry one of whose
    parts carries a [functionResponse] gives, at its own position, a
    message with role [tool], with [tool_call_id] the id of the first such
    response, and with the payload as content: a string as it is; for an
    object, [String] of its [output] field if it has one, else [String]
    of its [content] field if it has one, else the serialization of the
    whole object; a payload of any other shape is serialized.  The
    translation has one message per entry. *)
Theorem C6_functionResponse_to_tool_message cs i c ps :
  cs !! i = Some c →
  parts c = Some ps →
  (∃ p, p ∈ ps ∧ is_Some (p_functionResponse p)) →
  length (toMessages (Some cs)) = length cs
  ∧ ∃ fr m,
      findFunctionResponse ps = Some fr
      ∧ toMessages (Some cs) !! i = Some m
      ∧ m_role m = Some "tool"
      ∧ m_tool_call_id m = fr_id fr
      ∧ (∀ s, fr_response fr = JStr s → m_content m = Some s)
      ∧ (∀ fields output,
           fr_response fr = JObj fields →
           jget "output" fields = Some output →
           m_content m = Some (js_String output))
      ∧ (∀ fields inner,
           fr_response fr = JObj fields →
           jget "output" fields = None →
           jget "content" fields = Some inner →
           m_content m = Some (js_String inner))
      ∧ (∀ fields,
           fr_response fr = JObj fields →
           jget "output" fields = None →
           jget "content" fields = None →
           m_content m = JSON_stringify (JObj fields))
      ∧ ((∀ s, fr_response fr ≠ JStr s) →
         (∀ fields, fr_response fr ≠ JObj fields) →
         m_content m = JSON_stringify (fr_response fr)).
Proof.
  intros Hi Hps (p & Hin & Hp).
  split; [apply length_map|].
  destruct (findFunctionResponse_is_Some ps p Hin Hp) as [fr Hfr].
  exists fr, (toMessage c).
  split; [exact Hfr|].
  split.
  { unfold toMessages. change (map toMessage cs) with (toMessage <$> cs).
    by rewrite list_lookup_fmap, Hi. }
  unfold toMessage. rewrite Hps, Hfr.
  cbn [m_role m_tool_call_id m_content]. unfold responseContent.
  split; [done|]. split; [done|].
  split; [by intros s ->|].
  split; [by intros fields output -> ->|].
  split; [by intros fields inner -> -> ->|].
  split; [by intros fields -> -> ->|].
  intros Hs Ho. destruct (fr_response fr); try done.
  - by destruct (Hs s).
  - by destruct (Ho fields).
Qed.

End WithRuntime.

Lemma C6_functionResponse_to_tool_message_witness :
  length (toMessages (RT := Reference.runtime) (Some Adapter.toolConversation))
  = 2%nat
  ∧ ∃ m,
      toMessages (RT := Reference.runtime) (Some Adapter.toolConversation)
        !! 1%nat = Some m
      ∧ m_role m = Some "tool"
      ∧ m_tool_call_id m = Some "call_1"
      ∧ m_content m = Some "42".
Proof.
  assert (Hex : ∃ p, p ∈ [ textPart "ignored";
                           responsePart (Some "call_1")
                             (JObj [("output", JNum 42)]) ]
                     ∧ is_Some (p_functionResponse p)).
  { exists (responsePart (Some "call_1") (JObj [("output", JNum 42)])).
    split; [|eexists; reflexivity].
    apply list_elem_of_In. right. left. reflexivity. }
  destruct (C6_functionResponse_to_tool_message (RT := Reference.runtime)
              Adapter.toolConversation 1%nat toolResultContent _
              eq_refl eq_refl Hex)
    as (Hlen & fr & m & Hfr & Hm & Hrole & Hid & _ & Hout & _).
  vm_compute in Hfr. injection Hfr as <-.
  split; [exact Hlen|]. exists m.
  split; [exact Hm|]. split; [exact Hrole|]. split; [exact Hid|].
  exact (Hout _ _ eq_refl eq_refl).
Defined.

(** The payload shapes of the translation, run on the reference runtime. *)
Example toMessage_payloads :
  map (λ payload,
         m_content (toMessage (RT := Reference.runtime)
                      {| role := Some "user";
                         parts := Some [responsePart (Some "id") payload] |}))
    [ JStr "plain";
      JObj [("content", JStr "c"); ("output", JStr "o")];
      JObj [("content", JStr "c")];
      JObj [("result", JNum 1)];
      JArr [JNum 1; JNum 2];
      JNull;
      JUndefined ]
  = [ Some "plain"; Some "o"; Some "c"; Some (dq "{'result':1}");
      Some "[1,2]"; Some "null"; None ].
Proof. vm_compute. reflexivity. Qed.

(** *** The provider request *)

Lemma forward_lookup config src dst (rc : gmap string RequestField) k :
  forward config src dst rc !! k
  = if bool_decide (dst = k) && negb (isUndefined (configGet config src))
    then Some (RParam (configGet config src)) else rc !! k.
Proof.
  unfold forward. destruct (isUndefined (configGet config src)).
  - by rewrite andb_false_r.
  - rewrite andb_true_r, lookup_insert. by repeat case_decide.
Qed.

Lemma fillRequest_lookup convert provider model config base k :
  k ≠ "tools" → k ≠ "tool_choice" →
  fillRequest convert provider model config base !! k
  = forward config "top_p" "top_p"
      (forward config "maxOutputTokens" "max_tokens"
         (forward config "temperature" "temperature" base)) !! k.
Proof.
  intros Ht Hc. unfold fillRequest.
  destruct (jsTruthy _ && _); [|done].
  case_bool_decide; [|done].
  by rewrite !lookup_insert_ne.
Qed.

(** Membership of a literal in a literal list. *)
Ltac in_list :=
  unfold requestKeys, samplingParamNames;
  repeat first [apply list_elem_of_here | apply list_elem_of_further].

Lemma fillRequest_other convert provider model config base k :
  k ∉ requestKeys → base !! k = None →
  fillRequest convert provider model config base !! k = None.
Proof.
  intros Hk Hbase.
  assert (∀ dst, dst ∈ requestKeys → dst ≠ k) as Hne
    by (intros dst Hdst ->; done).
  assert (forward config "top_p" "top_p"
            (forward config "maxOutputTokens" "max_tokens"
               (forward config "temperature" "temperature" base)) !! k
          = None) as Hrc.
  { rewrite !forward_lookup.
    rewrite !bool_decide_eq_false_2; [done|..]; apply Hne; in_list. }
  unfold fillRequest.
  destruct (jsTruthy _ && _); [|done].
  case_bool_decide; [|done].
  rewrite !lookup_insert_ne; [done|..]; apply Hne; in_list.
Qed.

(** C8.  Of the source config the adapter forwards
    [temperature] and [top_p] under their own names and
    [maxOutputTokens] as [max_tokens], each exactly when it is defined
    there, with its value and with no default otherwise; this holds for
    the request of [generateContent] and for that of
    [generateContentStream].  No key other than [requestKeys] is ever in
    the request, so any other sampling parameter of the source is left
    out. *)
Theorem C8_forwarded_parameters convert provider model messages config :
  (∀ k, k ∈ ["temperature"; "maxOutputTokens"; "top_p"] →
        requestConfig convert provider model messages config
          !! providerName k
        = (if isUndefined (configGet config k) then None
           else Some (RParam (configGet config k)))
        ∧ requestConfigStream convert provider model messages config
            !! providerName k
          = (if isUndefined (configGet config k) then None
             else Some (RParam (configGet config k))))
  ∧ (∀ k, k ∉ requestKeys →
          requestConfig convert provider model messages config !! k = None
          ∧ requestConfigStream convert provider model messages config !! k
            = None).
Proof.
  split.
  - intros k Hk. unfold requestConfig, requestConfigStream.
    apply list_elem_of_In in Hk. simpl in Hk.
    destruct Hk as [<- | [<- | [<- | []]]];
      (split; (rewrite fillRequest_lookup by done);
       rewrite !forward_lookup; simpl;
       destruct (isUndefined (configGet config _)); reflexivity).
  - intros k Hk.
    assert (∀ key, key ∈ requestKeys → key ≠ k) as Hne
      by (intros key Hkey ->; done).
    unfold requestConfig, requestConfigStream.
    split; apply fillRequest_other; try done;
      rewrite !lookup_insert_ne, ?lookup_singleton_ne; try done;
      apply Hne; in_list.
Qed.

Lemma C8_forwarded_parameters_witness :
  requestConfig (λ _, []) OpenAI "gpt" [] sampleConfig !! "max_tokens"
  = Some (RParam (JNum 256))
  ∧ requestConfig (λ _, []) OpenAI "gpt" [] sampleConfig !! "top_k" = None.
Proof.
  split.
  - apply (proj1 (C8_forwarded_parameters (λ _, []) OpenAI "gpt" [] sampleConfig)
             "maxOutputTokens").
    in_list.
  - apply (proj2 (C8_forwarded_parameters (λ _, []) OpenAI "gpt" [] sampleConfig)
             "top_k").
    intros Hin. apply list_elem_of_In in Hin. simpl in Hin.
    repeat (destruct Hin as [Hin | Hin]; [discriminate Hin|]). exact Hin.
Defined.

(** C8 does not extend to every declared sampling parameter: [top_k] is
    one of them and keeps its name, and a source config that sets it to
    40 gives a provider request, streaming or not, without [top_k]. *)
Lemma C8_top_k_is_dropped :
  "top_k" ∈ samplingParamNames
  ∧ providerName "top_k" = "top_k"
  ∧ configGet sampleConfig "top_k" = JNum 40
  ∧ requestConfig (λ _, []) OpenAI "gpt" [] sampleConfig !! "top_k" = None
  ∧ requestConfigStream (λ _, []) OpenAI "gpt" [] sampleConfig !! "top_k"
    = None.
Proof.
  split; [in_list|]. vm_compute. repeat split; reflexivity.
Qed.

(** *** [countTokens] *)

(** [ceilQuarter n] is the least integer not below [n / 4]. *)
Lemma ceilQuarter_spec n :
  4 * (ceilQuarter n - 1) < n ≤ 4 * ceilQuarter n.
Proof.
  unfold ceilQuarter.
  pose proof (Z.div_mod (- n) 4 ltac:(lia)).
  pose proof (Z.mod_pos_bound (- n) 4 ltac:(lia)). lia.
Qed.

Lemma ceilQuarter_mono n m : n ≤ m → ceilQuarter n ≤ ceilQuarter m.
Proof.
  intros H. pose proof (ceilQuarter_spec n). pose proof (ceilQuarter_spec m).
  lia.
Qed.

Lemma countedText_singleText t : countedText (singleText t) = t.
Proof. unfold countedText, singleText, orElse. simpl. by case_bool_decide. Qed.

(** C9.  [countTokens] is monotonic non-decreasing in the
    length of the text it reads, which is the text of the first part of
    the first content entry; so it is monotonic in the length of the
    input text for requests whose text is all in that part. *)
Theorem C9_monotone_in_counted_text :
  (∀ c1 c2,
     (String.length (countedText c1) ≤ String.length (countedText c2))%nat →
     countTokens c1 ≤ countTokens c2)
  ∧ (∀ t1 t2,
       (String.length t1 ≤ String.length t2)%nat →
       countTokens (singleText t1) ≤ countTokens (singleText t2)).
Proof.
  assert (∀ c1 c2,
     (String.length (countedText c1) ≤ String.length (countedText c2))%nat →
     countTokens c1 ≤ countTokens c2) as H.
  { intros c1 c2 Hle. unfold countTokens. apply ceilQuarter_mono. lia. }
  split; [exact H|].
  intros t1 t2 Hle. apply H. by rewrite !countedText_singleText.
Qed.

Lemma C9_monotone_in_counted_text_witness :
  countTokens (singleText "abcde") ≤ countTokens (singleText "abcdefghi").
Proof.
  apply (proj2 C9_monotone_in_counted_text). simpl. lia.
Defined.

(** C9 does not extend to the whole input text: the second request
    carries more text than the first and is counted as fewer tokens. *)
Lemma C9_more_text_fewer_tokens :
  (String.length (inputText (singleText "12345678"))
   ≤ String.length (inputText (textInSecondPart "1234567890123456")))%nat
  ∧ countTokens (singleText "12345678") = 2
  ∧ countTokens (textInSecondPart "1234567890123456") = 0.
Proof. vm_compute. split; [lia|split; reflexivity]. Qed.

(** *** [getOpenAI] *)

Lemma list_ascii_of_string_app s t :
  list_ascii_of_string (s +:+ t)
  = list_ascii_of_string s ++ list_ascii_of_string t.
Proof. induction s as [|a s IH]; simpl; [done|]. by rewrite <- IH. Qed.

Lemma endsWith_app s : endsWith (s +:+ "/v1") "/v1" = true.
Proof.
  unfold endsWith. rewrite list_ascii_of_string_app, rev_app_distr.
  reflexivity.
Qed.

(** For Ollama (and for the local provider) the adapter ends the base
    URL in [/v1], and adds the suffix exactly when it is not there. *)
Lemma withV1_spec u :
  endsWith (withV1 u) "/v1" = true
  ∧ (endsWith u "/v1" = true → withV1 u = u)
  ∧ (endsWith u "/v1" = false → withV1 u = stripTrailingSlashes u +:+ "/v1").
Proof.
  unfold withV1. destruct (endsWith u "/v1") eqn:E.
  - done.
  - split; [apply endsWith_app|done].
Qed.

Lemma getOpenAI_ollama_without_key model u version :
  getOpenAI {| ac_provider := Ollama; ac_model := model; ac_baseUrl := u;
               ac_apiKey := None; ac_apiVersion := version |}
  = {| o_apiKey := "dummy-key"; o_baseURL := withV1 u;
       o_defaultHeaders := None |}.
Proof. reflexivity. Qed.

End TranslatorFacts.

(** ** The generator factory *)

Module FactoryFacts.
Import Factory.

(** With the provider [ollama] both revisions build the OpenAI-compatible
    generator with the empty key, whatever the config and the
    environment hold, and its base URL ends in [/v1]. *)
Lemma ollama_needs_no_key config env :
  effectiveProvider config env = "ollama" →
  ∃ m url,
    ByAuth.createContentGenerator config env
    = inr (OpenAIContentGenerator "" m (Some "ollama") (Some url))
    ∧ ByProvider.createContentGenerator config env
      = inr (OpenAIContentGenerator "" m (Some "ollama") (Some url))
    ∧ endsWith url "/v1" = true.
Proof.
  intros Hp. unfold ByAuth.createContentGenerator,
    ByProvider.createContentGenerator, byProvider. rewrite Hp. simpl.
  eexists _, _. split; [reflexivity|]. split; [reflexivity|].
  apply TranslatorFacts.endsWith_app.
Qed.

(** With the provider set to one of the three aliases both revisions end
    in the OpenAI-compatible generator or in the missing-key error,
    whatever [authType] and the environment hold. *)
Lemma alias_gives_openai_family config env alias :
  alias ∈ ["openai"; "deepseek"; "ollama"] →
  provider config = Some alias →
  ByAuth.createContentGenerator config env
  = ByProvider.createContentGenerator config env
  ∧ ((∃ key m url,
        ByAuth.createContentGenerator config env
        = inr (OpenAIContentGenerator key m (Some alias) (Some url)))
     ∨ (∃ message, ByAuth.createContentGenerator config env = inl message)).
Proof.
  intros Ha Hp. apply list_elem_of_In in Ha. simpl in Ha.
  unfold ByAuth.createContentGenerator, ByProvider.createContentGenerator,
    byProvider, effectiveProvider.
  rewrite Hp.
  destruct Ha as [<- | [<- | [<- | []]]]; simpl;
    (split; [reflexivity|]);
    try destruct (truthy (apiKey config)); simpl; eauto 6.
Qed.

(** C5. At an Ollama config whose base URL already ends in [/v1] the
    factory, in either revision, succeeds without a key but adds the
    suffix once more; [getOpenAI] leaves the same URL as it is. *)
Theorem C5_ollama_suffix_appended_twice :
  endsWith "http://localhost:11434/v1" "/v1" = true
  ∧ ByAuth.createContentGenerator ollamaWithSuffix ∅
    = inr (OpenAIContentGenerator "" "llama3" (Some "ollama")
             (Some "http://localhost:11434/v1/v1"))
  ∧ ByProvider.createContentGenerator ollamaWithSuffix ∅
    = inr (OpenAIContentGenerator "" "llama3" (Some "ollama")
             (Some "http://localhost:11434/v1/v1"))
  ∧ ByAuth.createContentGenerator ollamaWithoutSuffix ∅
    = inr (OpenAIContentGenerator "" "llama3" (Some "ollama")
             (Some "http://localhost:11434/v1"))
  ∧ Translator.o_baseURL
      (Translator.getOpenAI
         {| Translator.ac_provider := Translator.Ollama;
            Translator.ac_model := "llama3";
            Translator.ac_baseUrl := "http://localhost:11434/v1";
            Translator.ac_apiKey := None;
            Translator.ac_apiVersion := None |})
    = "http://localhost:11434/v1".
Proof. vm_compute. repeat split; reflexivity. Qed.

(** The same through the environment: [OLLAMA_BASE_URL] ending in [/v1]
    and no base URL in the config. *)
Example ollama_env_suffix_appended_twice :
  ByAuth.createContentGenerator
    {| model := "llama3"; apiKey := None; vertexai := None; authType := None;
       provider := Some "ollama"; baseURL := None |}
    {["OLLAMA_BASE_URL" := "http://gpu-box:11434/v1"]}
  = inr (OpenAIContentGenerator "" "llama3" (Some "ollama")
           (Some "http://gpu-box:11434/v1/v1")).
Proof. vm_compute. reflexivity. Qed.

(** The OpenAI and DeepSeek providers do need a key. *)
Example openai_needs_key :
  ByAuth.createContentGenerator
    {| model := "gpt"; apiKey := None; vertexai := None; authType := None;
       provider := Some "openai"; baseURL := None |} ∅
  = inl "OpenAI API key is required".
Proof. vm_compute. reflexivity. Qed.

End FactoryFacts.

(** ** Auth resolution *)

Module AuthFacts.
Import Auth.

Section Collaborators.
Variable USER_SETTINGS_PATH : string.
Variable validateAuthMethod : AuthType → option string.

(** C3. With the provider set to [openai], [deepseek] or [ollama] the
    auth type settled on is [USE_OPENAI], the same for the three,
    whatever the environment holds and whatever auth type was
    configured; the call ends in [refreshAuth(USE_OPENAI)], unless the
    validation of [USE_OPENAI] is asked for and fails. *)
Theorem C3_provider_overrides_environment
    configuredAuthType useExternalAuth provider env :
  provider ∈ ["openai"; "deepseek"; "ollama"] →
  effectiveAuthType configuredAuthType (Some provider) env = Some USE_OPENAI
  ∧ validateNonInteractiveAuth USER_SETTINGS_PATH validateAuthMethod
      configuredAuthType useExternalAuth (Some provider) env
    = (if negb (default false useExternalAuth)
       then match validateAuthMethod USE_OPENAI with
            | Some err => Exit 1 err
            | None => RefreshAuth USE_OPENAI
            end
       else RefreshAuth USE_OPENAI).
Proof.
  intros Hp. apply list_elem_of_In in Hp. simpl in Hp.
  assert (effectiveAuthType configuredAuthType (Some provider) env
          = Some USE_OPENAI) as He
    by (destruct Hp as [<- | [<- | [<- | []]]]; reflexivity).
  split; [exact He|].
  unfold Auth.validateNonInteractiveAuth. by rewrite He.
Qed.

(** C4. With no provider set (or the default [gemini]) and no auth type
    configured, the auth type settled on is read from the environment:
    [LOGIN_WITH_GOOGLE] if [GOOGLE_GENAI_USE_GCA] is [true]; else
    [USE_VERTEX_AI] if [GOOGLE_GENAI_USE_VERTEXAI] is [true]; else
    [USE_GEMINI] if [GEMINI_API_KEY] is set; else [USE_OPENAI] if
    [OPENAI_API_KEY] is set; else none, and then the call ends in
    [process.exit(1)], with or without external auth. *)
Theorem C4_environment_priority useExternalAuth provider env :
  truthy provider = false ∨ provider = Some "gemini" →
  (env !! "GOOGLE_GENAI_USE_GCA" = Some "true" →
   effectiveAuthType None provider env = Some LOGIN_WITH_GOOGLE)
  ∧ (env !! "GOOGLE_GENAI_USE_GCA" ≠ Some "true" →
     env !! "GOOGLE_GENAI_USE_VERTEXAI" = Some "true" →
     effectiveAuthType None provider env = Some USE_VERTEX_AI)
  ∧ (env !! "GOOGLE_GENAI_USE_GCA" ≠ Some "true" →
     env !! "GOOGLE_GENAI_USE_VERTEXAI" ≠ Some "true" →
     truthy (env !! "GEMINI_API_KEY") = true →
     effectiveAuthType None provider env = Some USE_GEMINI)
  ∧ (env !! "GOOGLE_GENAI_USE_GCA" ≠ Some "true" →
     env !! "GOOGLE_GENAI_USE_VERTEXAI" ≠ Some "true" →
     truthy (env !! "GEMINI_API_KEY") = false →
     truthy (env !! "OPENAI_API_KEY") = true →
     effectiveAuthType None provider env = Some USE_OPENAI)
  ∧ (env !! "GOOGLE_GENAI_USE_GCA" ≠ Some "true" →
     env !! "GOOGLE_GENAI_USE_VERTEXAI" ≠ Some "true" →
     truthy (env !! "GEMINI_API_KEY") = false →
     truthy (env !! "OPENAI_API_KEY") = false →
     effectiveAuthType None provider env = None
     ∧ ∃ message,
         validateNonInteractiveAuth USER_SETTINGS_PATH validateAuthMethod
           None useExternalAuth provider env
         = Exit 1 message).
Proof.
  intros Hp.
  assert (effectiveAuthType None provider env = getAuthTypeFromEnv env)
    as He.
  { unfold effectiveAuthType. destruct Hp as [-> | ->]; reflexivity. }
  unfold Auth.validateNonInteractiveAuth. rewrite He.
  unfold getAuthTypeFromEnv.
  repeat split; intros;
    repeat first [ rewrite bool_decide_eq_true_2 by assumption
                 | rewrite bool_decide_eq_false_2 by assumption ];
    repeat match goal with H : truthy _ = _ |- _ => rewrite H end;
    eauto.
Qed.

End Collaborators.

Lemma C3_provider_overrides_environment_witness :
  getAuthTypeFromEnv {["GEMINI_API_KEY" := "g-key"]} = Some USE_GEMINI
  ∧ effectiveAuthType None (Some "ollama") {["GEMINI_API_KEY" := "g-key"]}
    = Some USE_OPENAI
  ∧ validateNonInteractiveAuth "settings.json" (λ _, None) None None
      (Some "ollama") {["GEMINI_API_KEY" := "g-key"]}
    = RefreshAuth USE_OPENAI.
Proof.
  split; [vm_compute; reflexivity|].
  apply (C3_provider_overrides_environment "settings.json" (λ _, None)
           None None "ollama" {["GEMINI_API_KEY" := "g-key"]}).
  apply list_elem_of_further, list_elem_of_further, list_elem_of_here.
Defined.

Lemma C4_environment_priority_witness :
  effectiveAuthType None None
    (<["GEMINI_API_KEY" := "g-key"]> {["OPENAI_API_KEY" := "o-key"]})
  = Some USE_GEMINI
  ∧ effectiveAuthType None None ∅ = None
  ∧ ∃ message,
      validateNonInteractiveAuth "settings.json" (λ _, None) None (Some true)
        None ∅
      = Exit 1 message.
Proof.
  split.
  - apply (C4_environment_priority "settings.json" (λ _, None) None None
             (<["GEMINI_API_KEY" := "g-key"]> {["OPENAI_API_KEY" := "o-key"]}));
      [left; reflexivity | vm_compute; discriminate
      | vm_compute; discriminate | vm_compute; reflexivity].
  - apply (C4_environment_priority "settings.json" (λ _, None) (Some true)
             None ∅);
      [left; reflexivity | vm_compute; discriminate
      | vm_compute; discriminate | reflexivity | reflexivity].
Defined.

(** The auth dialog offers the three aliases with the one auth type. *)
Example dialog_aliases :
  map snd (filter (λ item, fst item ≠ "Gemini (Google)") items)
  = [USE_OPENAI; USE_OPENAI; USE_OPENAI].
Proof. vm_compute. reflexivity. Qed.

End AuthFacts.

(** ** More on strings *)

Module StringFacts.

Lemma append_cons a s t : String a s +:+ t = String a (s +:+ t).
Proof. reflexivity. Qed.

Lemma append_nil_r s : s +:+ "" = s.
Proof. induction s as [|a s IH]; [done|]. by rewrite append_cons, IH. Qed.

Lemma append_assoc a b c : (a +:+ b) +:+ c = a +:+ (b +:+ c).
Proof. induction a as [|x a IH]; [done|]. by rewrite !append_cons, IH. Qed.

Lemma length_append a b :
  String.length (a +:+ b) = (String.length a + String.length b)%nat.
Proof.
  induction a as [|x a IH]; [done|]. rewrite append_cons. simpl. by rewrite IH.
Qed.

Lemma truthy_orElse o : truthy o = false → orElse o "" = "".
Proof.
  destruct o as [s|]; [|done]. unfold truthy, orElse.
  by case_bool_decide.
Qed.

Lemma truthy_default o : truthy o = true → orElse o "" = default "" o.
Proof.
  destruct o as [s|]; [|done]. unfold truthy, orElse. simpl.
  by case_bool_decide.
Qed.

Lemma orElse_truthy o : orElse o "" = if truthy o then default "" o else "".
Proof.
  destruct o as [s|]; [|done]. unfold truthy, orElse. simpl.
  by case_bool_decide.
Qed.

Lemma orElse_Some s : orElse (Some s) "" = s.
Proof. unfold orElse. by case_bool_decide. Qed.

End StringFacts.

(** ** More on the streaming normalizer *)

Module StreamMore.
Import Stream StreamView StringFacts.

Lemma mergeToolCall_cons e buffer toolCall :
  mergeToolCall (e :: buffer) toolCall
  = if decide (b_index e = tc_index toolCall)
    then updateExisting e toolCall :: buffer
    else e :: mergeToolCall buffer toolCall.
Proof.
  unfold mergeToolCall. simpl. case_decide; [done|].
  by destruct (list_find _ buffer) as [[i x]|].
Qed.

Lemma fragmentAt_cons i e buffer :
  fragmentAt i (e :: buffer)
  = if decide (b_index e = i) then Some e else fragmentAt i buffer.
Proof.
  unfold fragmentAt. simpl. case_decide; [done|].
  by destruct (list_find _ buffer) as [[j x]|].
Qed.

Lemma updateExisting_arguments e toolCall :
  b_arguments (updateExisting e toolCall)
  = b_arguments e +:+ orElse (fnArguments toolCall) "".
Proof.
  unfold updateExisting. cbn [b_arguments].
  destruct (truthy (fnArguments toolCall)) eqn:Ht.
  - by rewrite orElse_Some, truthy_default.
  - rewrite truthy_orElse by done. by rewrite append_nil_r.
Qed.

Lemma updateExisting_name e toolCall :
  b_name (updateExisting e toolCall)
  = lastTruthy (b_name e) [fnName toolCall].
Proof. reflexivity. Qed.

Lemma fragmentAt_mergeToolCall i buffer toolCall :
  fragmentAt i (mergeToolCall buffer toolCall)
  = if decide (tc_index toolCall = i)
    then match fragmentAt i buffer with
         | Some e => Some (updateExisting e toolCall)
         | None => Some (newToolCall toolCall)
         end
    else fragmentAt i buffer.
Proof.
  induction buffer as [|e buffer IH].
  - unfold mergeToolCall. simpl. rewrite fragmentAt_cons. simpl.
    by case_decide.
  - rewrite mergeToolCall_cons, (fragmentAt_cons i e buffer).
    destruct (decide (b_index e = tc_index toolCall)) as [He|He].
    + rewrite fragmentAt_cons. simpl.
      repeat case_decide; congruence.
    + rewrite fragmentAt_cons, IH.
      repeat case_decide; congruence.
Qed.

Lemma argumentsPieces_cons i toolCall l :
  argumentsPieces i (toolCall :: l)
  = (if decide (tc_index toolCall = i)
     then orElse (fnArguments toolCall) "" else "")
    +:+ argumentsPieces i l.
Proof.
  unfold argumentsPieces, deltasAt. rewrite filter_cons.
  by case_decide.
Qed.

(** X1. Reassembly by index.  After the deltas [l] are merged into a
    buffer, the arguments text held for an index is the text held before
    followed by the pieces of the deltas with that index, in arrival
    order, however the deltas of different indexes are interleaved; the
    name held is the last non-empty name among those deltas, or the name
    held before. *)
Theorem X1_merge_by_index l : ∀ buffer i,
  argumentsAt i (mergeToolCalls buffer l)
  = argumentsAt i buffer +:+ argumentsPieces i l
  ∧ nameAt i (mergeToolCalls buffer l)
    = lastTruthy (nameAt i buffer) (map fnName (deltasAt i l)).
Proof.
  induction l as [|toolCall l IH]; intros buffer i.
  - split; [by rewrite append_nil_r|done].
  - unfold mergeToolCalls in *. simpl.
    destruct (IH (mergeToolCall buffer toolCall) i) as [-> ->].
    rewrite argumentsPieces_cons. unfold deltasAt. rewrite filter_cons.
    unfold argumentsAt, nameAt. rewrite fragmentAt_mergeToolCall.
    destruct (decide (tc_index toolCall = i)) as [Hi|Hi].
    + destruct (fragmentAt i buffer) as [e|].
      * rewrite updateExisting_arguments, append_assoc. done.
      * split; [done|]. cbn [map lastTruthy foldl newToolCall b_name].
        by rewrite orElse_truthy.
    + done.
Qed.

Lemma indexes_mergeToolCall buffer toolCall :
  indexes (mergeToolCall buffer toolCall)
  = if decide (tc_index toolCall ∈ indexes buffer) then indexes buffer
    else indexes buffer ++ [tc_index toolCall].
Proof.
  unfold indexes. induction buffer as [|e buffer IH].
  - done.
  - rewrite mergeToolCall_cons. simpl.
    destruct (decide (b_index e = tc_index toolCall)) as [He|He].
    + destruct (decide (tc_index toolCall ∈ b_index e :: map b_index buffer))
        as [Hin|Hin]; [done|].
      destruct Hin. rewrite He. apply list_elem_of_here.
    + simpl. rewrite IH.
      destruct (decide (tc_index toolCall ∈ map b_index buffer)) as [Hin|Hin];
        destruct (decide (tc_index toolCall ∈ b_index e :: map b_index buffer))
        as [Hin'|Hin']; try done.
      * destruct Hin'. by apply list_elem_of_further.
      * apply elem_of_cons in Hin' as [?|?]; congruence.
Qed.

Lemma mergeToolCalls_NoDup l : ∀ buffer,
  NoDup (indexes buffer) → NoDup (indexes (mergeToolCalls buffer l)).
Proof.
  induction l as [|toolCall l IH]; intros buffer Hnd; [done|].
  unfold mergeToolCalls in *. simpl. apply IH.
  rewrite indexes_mergeToolCall. case_decide as Hin; [done|].
  apply NoDup_app. split; [done|]. split; [|apply NoDup_singleton].
  intros x Hx ->%list_elem_of_singleton. done.
Qed.

Section WithRuntime.
Context `{RT : JSRuntime}.

Lemma finalState_cons s chunk rest :
  finalState s (chunk :: rest) = finalState (fst (step s chunk)) rest.
Proof. reflexivity. Qed.

(** X2. In every state the generator reaches, the fragments of the buffer
    have pairwise distinct indexes: a delta never adds a second fragment
    for an index the buffer already holds. *)
Theorem X2_indexes_stay_distinct chunks :
  NoDup (indexes (toolCallsBuffer (finalState initial chunks))).
Proof.
  assert (∀ s, NoDup (indexes (toolCallsBuffer s)) →
               NoDup (indexes (toolCallsBuffer (finalState s chunks)))) as H.
  { induction chunks as [|chunk rest IH]; intros s Hs; [done|].
    rewrite finalState_cons. apply IH.
    destruct (isDone chunk) eqn:Hd.
    - rewrite StreamFacts.step_done by done. apply NoDup_nil_2.
    - rewrite (proj1 (StreamFacts.step_not_done_buffer s chunk Hd)),
        StreamFacts.absorb_buffer.
      by apply mergeToolCalls_NoDup. }
  apply H, NoDup_nil_2.
Qed.

Lemma absorb_text s chunk :
  accumulatedText (absorb s chunk)
  = accumulatedText s +:+ orElse (chunkContent chunk) "".
Proof.
  unfold absorb. cbn [accumulatedText].
  destruct (truthy (chunkContent chunk)) eqn:Ht.
  - by rewrite truthy_default.
  - rewrite truthy_orElse by done. by rewrite append_nil_r.
Qed.

Lemma emittedText_app rs1 rs2 :
  emittedText (rs1 ++ rs2) = emittedText rs1 +:+ emittedText rs2.
Proof.
  unfold emittedText. induction rs1 as [|r rs1 IH]; [done|].
  simpl. by rewrite IH, append_assoc.
Qed.

Lemma emittedText_singleton r : emittedText [r] = r_text r.
Proof. unfold emittedText. simpl. apply append_nil_r. Qed.

Lemma step_text s chunk :
  emittedText (option_list (snd (step s chunk)))
    +:+ accumulatedText (fst (step s chunk))
  = accumulatedText s +:+ orElse (chunkContent chunk) "".
Proof.
  rewrite <- absorb_text. unfold step.
  destruct (isDone chunk || _); [|done].
  destruct (isDone chunk || (10 <=? _)); [|done].
  cbn [fst snd]. simpl (option_list _).
  rewrite emittedText_singleton. unfold buildResponse. cbn [r_text].
  rewrite orElse_Some.
  unfold reset. destruct (isDone chunk); cbn [accumulatedText initial];
    by rewrite append_nil_r.
Qed.

(** X3. No text is lost or repeated: the text of the responses yielded so
    far, followed by the text still held, is the text held at the start
    followed by every text delta of the chunks consumed. *)
Theorem X3_text_is_conserved chunks : ∀ s,
  emittedText (run s chunks) +:+ accumulatedText (finalState s chunks)
  = accumulatedText s +:+ streamText chunks.
Proof.
  induction chunks as [|chunk rest IH]; intros s.
  - unfold streamText. simpl. by rewrite append_nil_r.
  - rewrite StreamFacts.run_cons, finalState_cons, emittedText_app,
      append_assoc, IH, <- append_assoc, step_text, append_assoc.
    reflexivity.
Qed.

(** X4. Once a tool-call delta has been seen, nothing is yielded before a
    chunk signals completion: text that arrives meanwhile is held back,
    however long it gets. *)
Theorem X4_nothing_yielded_while_in_progress chunks : ∀ s,
  hasToolCalls s = true →
  Forall (λ chunk, isDone chunk = false) chunks →
  run s chunks = []
  ∧ hasToolCalls (finalState s chunks) = true
  ∧ accumulatedText (finalState s chunks)
    = accumulatedText s +:+ streamText chunks.
Proof.
  induction chunks as [|chunk rest IH]; intros s Hs Hnd.
  - unfold streamText. simpl. by rewrite append_nil_r.
  - apply Forall_cons in Hnd as [Hc Hrest].
    assert (hasToolCalls (absorb s chunk) = true) as Ha.
    { unfold absorb. simpl. by destruct (chunkToolCalls chunk). }
    rewrite StreamFacts.run_cons, finalState_cons,
      (StreamFacts.step_in_progress s chunk Hc Ha).
    cbn [fst snd option_list app].
    destruct (IH (absorb s chunk) Ha Hrest) as (-> & -> & ->).
    rewrite absorb_text, append_assoc. done.
Qed.

(** X5. A response yielded by a chunk that does not signal completion
    carries text only: the chunk brought text, the text of the response
    has ten characters or more, [functionCalls] is undefined, and the one
    candidate holds the one text part. *)
Theorem X5_interim_response_is_text_only chunks chunk r :
  isDone chunk = false →
  snd (step (finalState initial chunks) chunk) = Some r →
  truthy (chunkContent chunk) = true
  ∧ (10 ≤ String.length (r_text r))%nat
  ∧ functionCalls r = None
  ∧ candidates r
    = [ {| c_parts := [TextPart (r_text r)]; c_role := "model"; c_index := 0;
           c_finishReason := chunkFinish chunk; c_safetyRatings := [] |} ].
Proof.
  intros Hd Hr.
  pose proof (StreamFacts.interim_flush_has_no_calls chunks chunk r Hd Hr)
    as Hnone.
  pose proof (StreamFacts.step_emitted _ _ _ Hr) as Hshape.
  unfold step in Hr. rewrite Hd in Hr. cbn [orb] in Hr.
  destruct (negb _ && truthy (chunkContent chunk)) eqn:Hguard;
    [|discriminate Hr].
  destruct (10 <=? _) eqn:Hlen; [|discriminate Hr]. clear Hr.
  apply andb_true_iff in Hguard as [_ Htext].
  apply Z.leb_le in Hlen.
  set (text := accumulatedText (absorb (finalState initial chunks) chunk)) in *.
  assert (text ≠ "") as Hne by (intros E; rewrite E in Hlen; simpl in Hlen; lia).
  subst r. cbv [buildResponse functionCalls] in Hnone.
  unfold buildResponse. cbn [r_text functionCalls candidates].
  rewrite Hnone, orElse_Some. unfold buildParts.
  rewrite bool_decide_eq_false_2 by done.
  split; [done|]. split; [lia|]. done.
Qed.

(** X6. While no tool call is in progress the text held back is shorter
    than ten characters.  A chunk makes the generator yield exactly when
    its finish reason is [stop] or [tool_calls], or when no tool call is
    in progress, the chunk brings text and the text held has reached ten
    characters; so a shorter text is not yielded by a chunk with any
    other finish reason. *)
Theorem X6_text_held_is_short :
  (∀ chunks,
     hasToolCalls (finalState initial chunks) = false →
     (String.length (accumulatedText (finalState initial chunks)) < 10)%nat)
  ∧ (∀ s chunk,
       is_Some (snd (step s chunk))
       ↔ (chunkFinish chunk = Some "stop"
          ∨ chunkFinish chunk = Some "tool_calls")
         ∨ (hasToolCalls (absorb s chunk) = false
            ∧ truthy (chunkContent chunk) = true
            ∧ (10 ≤ String.length (accumulatedText (absorb s chunk)))%nat)).
Proof.
  split; [intros chunks|].
  2:{ intros s chunk. unfold step, isDone.
      destruct (decide (chunkFinish chunk = Some "stop")) as [Hs|Hs];
        [rewrite (bool_decide_eq_true_2 _ Hs); cbn [orb]; split; eauto|].
      rewrite (bool_decide_eq_false_2 _ Hs).
      destruct (decide (chunkFinish chunk = Some "tool_calls")) as [Ht|Ht];
        [rewrite (bool_decide_eq_true_2 _ Ht); cbn [orb]; split; eauto|].
      rewrite (bool_decide_eq_false_2 _ Ht). cbn [orb].
      destruct (hasToolCalls (absorb s chunk)); cbn [negb andb].
      { split; [intros [x Hx]; discriminate Hx|].
        intros [[?|?]|(? & _)]; done. }
      destruct (truthy (chunkContent chunk)).
      2:{ split; [intros [x Hx]; discriminate Hx|].
          intros [[?|?]|(_ & ? & _)]; done. }
      destruct (10 <=? _) eqn:Hlen.
      - apply Z.leb_le in Hlen. split; [|eauto].
        intros _. right. split; [done|]. split; [done|]. lia.
      - apply Z.leb_gt in Hlen. split; [intros [x Hx]; discriminate Hx|].
        intros [[?|?]|(_ & _ & ?)]; [done|done|lia]. }
  assert (∀ s,
    (hasToolCalls s = false → (String.length (accumulatedText s) < 10)%nat) →
    hasToolCalls (finalState s chunks) = false →
    (String.length (accumulatedText (finalState s chunks)) < 10)%nat) as H.
  { induction chunks as [|chunk rest IH]; intros s Hs; [exact Hs|].
    rewrite finalState_cons. apply IH. clear IH.
    unfold step.
    destruct (isDone chunk) eqn:Hd; cbn [orb].
    { intros _. simpl. lia. }
    destruct (hasToolCalls (absorb s chunk)) eqn:Hh; cbn [negb andb].
    { cbn [fst]. congruence. }
    assert (hasToolCalls s = false) as Hs0.
    { unfold absorb in Hh. simpl in Hh.
      by destruct (chunkToolCalls chunk). }
    specialize (Hs Hs0).
    destruct (truthy (chunkContent chunk)) eqn:Ht.
    - destruct (10 <=? _) eqn:Hlen; cbn [fst]; intros _.
      + simpl. lia.
      + apply Z.leb_gt in Hlen. lia.
    - cbn [fst]. intros _. unfold absorb. cbn [accumulatedText].
      by rewrite Ht. }
  apply H. intros _. simpl. lia.
Qed.

Lemma mergeToolCall_fresh buffer toolCall :
  tc_index toolCall ∉ indexes buffer →
  mergeToolCall buffer toolCall = buffer ++ [newToolCall toolCall].
Proof.
  unfold indexes. induction buffer as [|e buffer IH]; intros Hin; [done|].
  rewrite mergeToolCall_cons. simpl in Hin.
  apply not_elem_of_cons in Hin as [Hne Hin].
  rewrite decide_False by congruence. by rewrite IH.
Qed.

Lemma mergeToolCalls_fresh l : ∀ buffer,
  NoDup (indexes buffer ++ map tc_index l) →
  mergeToolCalls buffer l = buffer ++ map newToolCall l.
Proof.
  induction l as [|toolCall l IH]; intros buffer Hnd.
  - by rewrite app_nil_r.
  - unfold mergeToolCalls in *. simpl.
    assert (tc_index toolCall ∉ indexes buffer) as Hfresh.
    { apply NoDup_app in Hnd as (_ & Hdisj & _). intros Hin.
      apply (Hdisj _ Hin), list_elem_of_here. }
    rewrite mergeToolCall_fresh by done.
    rewrite IH.
    + by rewrite <- app_assoc.
    + unfold indexes in *. rewrite map_app, <- app_assoc. exact Hnd.
Qed.

Lemma parseArgs_orElse a : parseArgs (Some (orElse a "")) = parseArgs a.
Proof.
  destruct a as [s|]; [|done]. unfold parseArgs, truthy, orElse.
  destruct (decide (s = "")) as [-> | Hs]; [reflexivity|].
  rewrite (bool_decide_eq_false_2 (s = "")) by done.
  cbn [default negb]. by rewrite (bool_decide_eq_false_2 (s = "")).
Qed.

Lemma toFunctionCall_newToolCall toolCall :
  toFunctionCall (newToolCall toolCall) = Completion.toFunctionCall toolCall.
Proof.
  unfold toFunctionCall, Completion.toFunctionCall, newToolCall.
  cbn [b_name b_arguments b_id].
  by rewrite orElse_Some, parseArgs_orElse.
Qed.

(** X7. The two paths agree on a reply that arrives whole.  A single chunk
    that signals completion and carries tool calls with distinct indexes
    yields one response whose [functionCalls], [text] and [finishReason]
    are those [generateContent] builds from the same reply; the
    non-streaming response keeps the one text part and has no
    [functionCall] part. *)
Theorem X7_whole_reply_agrees l text reason :
  NoDup (map tc_index l) →
  l ≠ [] →
  reason = "stop" ∨ reason = "tool_calls" →
  ∃ r r',
    gen [toolCallsChunk l text (Some reason)] = [r]
    ∧ Completion.assemble (replyOf l text reason) = Some r'
    ∧ functionCalls r = functionCalls r'
    ∧ r_text r = r_text r'
    ∧ map c_finishReason (candidates r) = map c_finishReason (candidates r')
    ∧ map c_parts (candidates r') = [[TextPart (r_text r')]].
Proof.
  intros Hnd Hne Hreason.
  assert (isDone (toolCallsChunk l text (Some reason)) = true) as Hd
    by (destruct Hreason as [-> | ->]; reflexivity).
  unfold gen. rewrite StreamFacts.run_cons, StreamFacts.step_done by done.
  eexists _, _. split; [reflexivity|]. split; [reflexivity|].
  unfold buildResponse.
  cbn [functionCalls r_text candidates map c_finishReason c_parts
       Completion.message Completion.msg_content Completion.msg_tool_calls
       Completion.cc_finish_reason fmap option_fmap option_map].
  rewrite StreamFacts.absorb_buffer, absorb_text.
  change (chunkToolCalls (toolCallsChunk l text (Some reason))) with (Some l).
  change (chunkContent (toolCallsChunk l text (Some reason))) with text.
  cbn [default initial toolCallsBuffer accumulatedText].
  rewrite mergeToolCalls_fresh by done.
  split; [|by rewrite orElse_Some].
  destruct l as [|toolCall l]; [done|].
  unfold flushFunctionCalls, id. cbn [app map].
  rewrite toFunctionCall_newToolCall. do 2 f_equal.
  clear. induction l as [|x l IH]; [done|].
  simpl. by rewrite toFunctionCall_newToolCall, IH.
Qed.

(** X24. A chunk that signals completion closes a turn: what the
    generator yields for the chunks after it is what a fresh generator
    yields for them, whatever came before. *)
Theorem X24_completion_separates_turns chunks final rest :
  isDone final = true →
  gen (chunks ++ final :: rest) = gen (chunks ++ [final]) ++ gen rest.
Proof.
  intros Hd. unfold gen.
  rewrite !StreamFacts.run_app, !StreamFacts.run_cons,
    !StreamFacts.step_done by done.
  cbn [fst snd option_list run]. by rewrite app_nil_r, <- app_assoc.
Qed.

End WithRuntime.

Lemma X4_nothing_yielded_while_in_progress_witness :
  gen (RT := Reference.runtime) heldBackStream = []
  ∧ accumulatedText (finalState (RT := Reference.runtime) initial heldBackStream)
    = "a text of more than ten charactersand some more".
Proof.
  destruct (X4_nothing_yielded_while_in_progress (RT := Reference.runtime)
              (tail heldBackStream)
              (fst (step (RT := Reference.runtime) initial
                      (argumentsChunk (Some "f") (Some "call_1") "{}" None)))
              eq_refl)
    as (Hrun & _ & Htext).
  { repeat constructor. }
  split.
  - unfold gen, heldBackStream. rewrite StreamFacts.run_cons.
    simpl tail in Hrun. rewrite Hrun. reflexivity.
  - unfold heldBackStream. rewrite finalState_cons.
    simpl tail in Htext. rewrite Htext. vm_compute. reflexivity.
Defined.

Lemma X5_interim_response_is_text_only_witness :
  (10 ≤ String.length (r_text (buildResponse "Hello, world" None None)))%nat
  ∧ functionCalls (buildResponse "Hello, world" None None) = None.
Proof.
  destruct (X5_interim_response_is_text_only (RT := Reference.runtime)
              [] (textChunk "Hello, world")
              (buildResponse "Hello, world" None None) eq_refl eq_refl)
    as (_ & Hlen & Hnone & _).
  split; [exact Hlen|exact Hnone].
Defined.

Lemma X6_text_held_is_short_witness :
  emittedText (gen (RT := Reference.runtime) unfinishedStream) = "Hello, world"
  ∧ accumulatedText
      (finalState (RT := Reference.runtime) initial unfinishedStream)
    = "! Bye"
  ∧ (String.length
       (accumulatedText
          (finalState (RT := Reference.runtime) initial unfinishedStream))
     < 10)%nat
  ∧ ¬ is_Some (snd (step (RT := Reference.runtime) initial lengthChunk)).
Proof.
  split; [vm_compute; reflexivity|]. split; [vm_compute; reflexivity|].
  split.
  - apply (proj1 (X6_text_held_is_short (RT := Reference.runtime))
             unfinishedStream).
    vm_compute. reflexivity.
  - intros Hyield.
    apply (proj2 (X6_text_held_is_short (RT := Reference.runtime))
             initial lengthChunk) in Hyield.
    destruct Hyield as [[H|H]|(_ & _ & H)].
    + discriminate H.
    + discriminate H.
    + vm_compute in H. lia.
Defined.

Lemma X7_whole_reply_agrees_witness :
  ∃ r r',
    gen (RT := Reference.runtime)
      [toolCallsChunk twoCalls (Some "ok") (Some "tool_calls")] = [r]
    ∧ Completion.assemble (RT := Reference.runtime)
        (replyOf twoCalls (Some "ok") "tool_calls") = Some r'
    ∧ functionCalls r = functionCalls r'
    ∧ r_text r = r_text r'
    ∧ map c_finishReason (candidates r) = map c_finishReason (candidates r')
    ∧ map c_parts (candidates r') = [[TextPart (r_text r')]].
Proof.
  apply (X7_whole_reply_agrees (RT := Reference.runtime) twoCalls (Some "ok")
           "tool_calls").
  - unfold twoCalls. simpl. apply NoDup_cons. split.
    + intros Hin. apply list_elem_of_In in Hin. simpl in Hin.
      destruct Hin as [Hin|[]]. discriminate Hin.
    + apply NoDup_singleton.
  - discriminate.
  - right. reflexivity.
Defined.

Lemma X24_completion_separates_turns_witness :
  gen (RT := Reference.runtime)
    (interimStream ++ finishChunk "tool_calls" None :: unfinishedStream)
  = gen (RT := Reference.runtime)
      (interimStream ++ [finishChunk "tool_calls" None])
    ++ gen (RT := Reference.runtime) unfinishedStream.
Proof.
  apply (X24_completion_separates_turns (RT := Reference.runtime)).
  reflexivity.
Defined.

End StreamMore.

(** ** Reset semantics of the streaming normalizer *)

Module StreamReset.
Import Stream StreamView StringFacts.

Lemma argumentsAt_mergeToolCall i buffer toolCall :
  argumentsAt i (mergeToolCall buffer toolCall)
  = argumentsAt i buffer
    +:+ (if decide (tc_index toolCall = i)
         then orElse (fnArguments toolCall) "" else "").
Proof.
  unfold argumentsAt. rewrite StreamMore.fragmentAt_mergeToolCall.
  destruct (decide (tc_index toolCall = i)) as [Hi|Hi].
  - destruct (fragmentAt i buffer) as [e|].
    + apply StreamMore.updateExisting_arguments.
    + reflexivity.
  - by rewrite append_nil_r.
Qed.

Lemma nameAt_mergeToolCall i buffer toolCall :
  nameAt i (mergeToolCall buffer toolCall)
  = if decide (tc_index toolCall = i)
    then lastTruthy (nameAt i buffer) [fnName toolCall]
    else nameAt i buffer.
Proof.
  unfold nameAt. rewrite StreamMore.fragmentAt_mergeToolCall.
  destruct (decide (tc_index toolCall = i)) as [Hi|Hi]; [|done].
  destruct (fragmentAt i buffer) as [e|]; [done|].
  cbn [newToolCall b_name lastTruthy foldl]. apply orElse_truthy.
Qed.

Lemma merged_arguments l : ∀ buffer i,
  argumentsAt i (mergeToolCalls buffer l)
  = argumentsAt i buffer +:+ argumentsPieces i l.
Proof.
  induction l as [|toolCall l IH]; intros buffer i.
  - by rewrite append_nil_r.
  - change (mergeToolCalls buffer (toolCall :: l))
      with (mergeToolCalls (mergeToolCall buffer toolCall) l).
    by rewrite IH, argumentsAt_mergeToolCall,
      StreamMore.argumentsPieces_cons, append_assoc.
Qed.

Lemma merged_name l : ∀ buffer i,
  nameAt i (mergeToolCalls buffer l)
  = lastTruthy (nameAt i buffer) (map fnName (deltasAt i l)).
Proof.
  induction l as [|toolCall l IH]; intros buffer i; [done|].
  change (mergeToolCalls buffer (toolCall :: l))
    with (mergeToolCalls (mergeToolCall buffer toolCall) l).
  rewrite IH, nameAt_mergeToolCall. unfold deltasAt. rewrite filter_cons.
  by destruct (decide (tc_index toolCall = i)).
Qed.

Lemma merged_presence l : ∀ buffer i,
  is_Some (fragmentAt i buffer) ∨ i ∈ map tc_index l →
  is_Some (fragmentAt i (mergeToolCalls buffer l)).
Proof.
  induction l as [|toolCall l IH]; intros buffer i H.
  - destruct H as [H|H]; [exact H|]. by apply elem_of_nil in H.
  - change (mergeToolCalls buffer (toolCall :: l))
      with (mergeToolCalls (mergeToolCall buffer toolCall) l).
    apply IH. rewrite StreamMore.fragmentAt_mergeToolCall.
    destruct (decide (tc_index toolCall = i)) as [Hi|Hi].
    + left. destruct (fragmentAt i buffer); eauto.
    + destruct H as [H|H]; [by left|]. right.
      simpl in H. apply elem_of_cons in H as [H|H]; [congruence|exact H].
Qed.

Lemma fragmentAt_lookup i buffer tc :
  fragmentAt i buffer = Some tc → ∃ k, buffer !! k = Some tc.
Proof.
  unfold fragmentAt.
  destruct (list_find _ buffer) as [[k x]|] eqn:Hfind; [|discriminate].
  intros [= ->]. exists k. by apply list_find_Some in Hfind as (H & _).
Qed.

Section WithRuntime.
Context `{RT : JSRuntime}.

(** C2. Every emission leaves the text buffer empty.  A chunk that does
    not signal completion, whether it makes the generator emit or not,
    leaves the fragment set as the merge of the chunk's deltas into the
    set held before, with no fragment lost, and leaves the in-progress
    flag raised if it was or if the chunk carries deltas; a chunk that
    signals completion puts all three variables back to their initial
    values.  Hence, for a stream with no completion before its last
    chunk, the completion flush reports the merge of every delta of the
    stream, those before and those after any interim text flush alike:
    for every index that a delta of the stream carries, the response
    lists a call whose arguments are parsed from the pieces of all the
    deltas with that index, joined in arrival order, and whose name is
    the last non-empty name among them. *)
Theorem C2_reset_semantics :
  (∀ s chunk r,
     snd (step s chunk) = Some r →
     accumulatedText (fst (step s chunk)) = "")
  ∧ (∀ s chunk,
       isDone chunk = false →
       toolCallsBuffer (fst (step s chunk))
       = mergeToolCalls (toolCallsBuffer s)
           (default [] (chunkToolCalls chunk))
       ∧ (length (toolCallsBuffer s)
          ≤ length (toolCallsBuffer (fst (step s chunk))))%nat
       ∧ hasToolCalls (fst (step s chunk))
         = (hasToolCalls s || bool_decide (is_Some (chunkToolCalls chunk))))
  ∧ (∀ s chunk, isDone chunk = true → fst (step s chunk) = initial)
  ∧ (∀ chunks final,
       Forall (λ chunk, isDone chunk = false) chunks →
       isDone final = true →
       ∃ r, gen (chunks ++ [final]) = gen chunks ++ [r]
            ∧ functionCalls r
              = flushFunctionCalls
                  (mergeToolCalls [] (allToolCalls (chunks ++ [final])))
            ∧ ∀ i,
                i ∈ map tc_index (allToolCalls (chunks ++ [final])) →
                ∃ k fc,
                  functionCalls r ≫= (λ fcs, fcs !! k) = Some fc
                  ∧ fc_args fc
                    = parseArgs
                        (Some (argumentsPieces i
                                 (allToolCalls (chunks ++ [final]))))
                  ∧ fc_name fc
                    = lastTruthy ""
                        (map fnName
                           (deltasAt i (allToolCalls (chunks ++ [final]))))).
Proof.
  split; [exact StreamFacts.step_emits_clears_text|].
  split.
  { intros s chunk Hd.
    destruct (StreamFacts.step_not_done_buffer s chunk Hd) as [-> ->].
    rewrite StreamFacts.absorb_buffer.
    split; [reflexivity|]. split; [apply StreamFacts.mergeToolCalls_length|].
    unfold absorb. simpl.
    destruct (chunkToolCalls chunk), (hasToolCalls s); reflexivity. }
  split.
  { intros s chunk Hd. by rewrite StreamFacts.step_done. }
  intros chunks final Hnd Hd.
  destruct (StreamFacts.completion_flush initial chunks final Hnd Hd)
    as (r & Hrun & Hfcs).
  exists r. split; [exact Hrun|]. split; [exact Hfcs|].
  intros i Hi.
  set (all := allToolCalls (chunks ++ [final])) in *.
  destruct (merged_presence all [] i (or_intror Hi)) as [tc Htc].
  destruct (fragmentAt_lookup i _ tc Htc) as [k Hk].
  exists k, (toFunctionCall tc).
  split.
  { rewrite Hfcs. by apply StreamFacts.flushFunctionCalls_lookup. }
  pose proof (merged_arguments all [] i) as Hargs.
  pose proof (merged_name all [] i) as Hname.
  unfold argumentsAt, nameAt in Hargs, Hname.
  cbn [initial toolCallsBuffer] in *. rewrite Htc in Hargs, Hname.
  unfold toFunctionCall. cbn [fc_args fc_name].
  rewrite Hargs, Hname, orElse_Some. done.
Qed.

End WithRuntime.

Lemma C2_reset_semantics_witness :
  ∃ r k fc,
    gen (RT := Reference.runtime)
      (interimStream ++ [finishChunk "tool_calls" None])
    = [buildResponse "Hello, world" None None; r]
    ∧ functionCalls r ≫= (λ fcs, fcs !! k) = Some fc
    ∧ fc_name fc = "f"
    ∧ fc_args fc = JObj [("a", JNum 1); ("b", JNum 2)].
Proof.
  destruct (proj2 (proj2 (proj2 (C2_reset_semantics (RT := Reference.runtime))))
              interimStream (finishChunk "tool_calls" None))
    as (r & Hgen & _ & Hindex).
  { repeat constructor. }
  { reflexivity. }
  destruct (Hindex 0) as (k & fc & Hfc & Hargs & Hname).
  { apply list_elem_of_here. }
  exists r, k, fc.
  split; [exact Hgen|]. split; [exact Hfc|].
  split; [rewrite Hname|rewrite Hargs]; vm_compute; reflexivity.
Defined.

End StreamReset.

(** ** More on the adapter *)

Module AdapterFacts.
Import Translator Adapter StringFacts.

Lemma clearVars_lookup vars : ∀ (env : gmap string string) k,
  clearVars vars env !! k
  = if bool_decide (k ∈ vars) && truthy (env !! k) then None else env !! k.
Proof.
  unfold clearVars.
  induction vars as [|v vars IH]; intros env k; [done|].
  cbn [foldl]. rewrite IH.
  destruct (decide (k = v)) as [-> | Hne].
  - rewrite (bool_decide_eq_true_2 (v ∈ v :: vars)) by apply list_elem_of_here.
    destruct (truthy (env !! v)) eqn:Ht.
    + rewrite lookup_delete_eq. cbn. by rewrite andb_false_r.
    + rewrite Ht. cbn. by rewrite andb_false_r.
  - assert ((if truthy (env !! v) then delete v env else env) !! k = env !! k)
      as ->.
    { destruct (truthy (env !! v)); [|done]. by rewrite lookup_delete_ne. }
    destruct (decide (k ∈ vars)) as [Hin|Hin].
    + rewrite !bool_decide_eq_true_2; [done|by apply list_elem_of_further|done].
    + rewrite !bool_decide_eq_false_2; [done| |done].
      intros [?|?]%elem_of_cons; done.
Qed.

(** X8. Constructing an adapter leaves no proxy variable with a value in
    the process environment, sets [NODE_TLS_REJECT_UNAUTHORIZED] to [0]
    exactly when [verify] is [false], and leaves every other variable as
    it was. *)
Theorem X8_constructor_environment verify (env : gmap string string) k :
  (k ∈ proxyVars → truthy (constructorEnv verify env !! k) = false)
  ∧ (k ∉ proxyVars → k ≠ "NODE_TLS_REJECT_UNAUTHORIZED" →
     constructorEnv verify env !! k = env !! k)
  ∧ constructorEnv verify env !! "NODE_TLS_REJECT_UNAUTHORIZED"
    = (if bool_decide (verify = Some false) then Some "0"
       else env !! "NODE_TLS_REJECT_UNAUTHORIZED").
Proof.
  unfold constructorEnv. split; [|split].
  - intros Hk.
    assert (k ≠ "NODE_TLS_REJECT_UNAUTHORIZED") as Hne.
    { intros ->. apply list_elem_of_In in Hk. simpl in Hk.
      repeat (destruct Hk as [Hk|Hk]; [discriminate Hk|]). exact Hk. }
    assert (truthy (clearVars proxyVars env !! k) = false) as Hclear.
    { rewrite clearVars_lookup, bool_decide_eq_true_2 by done.
      by destruct (truthy (env !! k)) eqn:Ht. }
    case_bool_decide; [by rewrite lookup_insert_ne|done].
  - intros Hk Hne.
    assert (clearVars proxyVars env !! k = env !! k) as Hclear
      by by rewrite clearVars_lookup, bool_decide_eq_false_2.
    case_bool_decide; [by rewrite lookup_insert_ne|done].
  - case_bool_decide; [by rewrite lookup_insert_eq|].
    by rewrite clearVars_lookup.
Qed.

Lemma X8_constructor_environment_witness :
  truthy (constructorEnv (Some false) proxiedEnv !! "HTTPS_PROXY") = false
  ∧ constructorEnv (Some false) proxiedEnv !! "PATH" = Some "/usr/bin".
Proof.
  split.
  - apply (X8_constructor_environment (Some false) proxiedEnv "HTTPS_PROXY").
    unfold proxyVars. do 3 apply list_elem_of_further. apply list_elem_of_here.
  - apply (X8_constructor_environment (Some false) proxiedEnv "PATH").
    + intros Hin. apply list_elem_of_In in Hin. simpl in Hin.
      repeat (destruct Hin as [Hin|Hin]; [discriminate Hin|]). exact Hin.
    + discriminate.
Defined.

(** An empty proxy variable is not deleted, and stays empty. *)
Example empty_proxy_variable_stays :
  constructorEnv None proxiedEnv !! "all_proxy" = Some ""
  ∧ constructorEnv None proxiedEnv !! "HTTPS_PROXY" = None
  ∧ constructorEnv None proxiedEnv !! "NODE_TLS_REJECT_UNAUTHORIZED" = None.
Proof. vm_compute. repeat split; reflexivity. Qed.

(** *** Type names *)

Lemma lowerChar_idempotent c : lowerChar (lowerChar c) = lowerChar c.
Proof. destruct c as [[] [] [] [] [] [] [] []]; reflexivity. Qed.

Lemma toLowerCase_idempotent s : toLowerCase (toLowerCase s) = toLowerCase s.
Proof.
  induction s as [|c s IH]; [done|]. simpl.
  by rewrite lowerChar_idempotent, IH.
Qed.

(** X9. The five named cases of the type conversion agree with its
    default case: for every type name the result is the name in lower
    case, and converting a converted name changes nothing. *)
Theorem X9_type_names_are_lowercased type :
  convertGeminiTypeToJsonSchema type = toLowerCase type
  ∧ convertGeminiTypeToJsonSchema (convertGeminiTypeToJsonSchema type)
    = convertGeminiTypeToJsonSchema type.
Proof.
  assert (∀ t, convertGeminiTypeToJsonSchema t = toLowerCase t) as H.
  { intros t. unfold convertGeminiTypeToJsonSchema.
    repeat (case_bool_decide; [by subst|]). done. }
  split; [apply H|]. by rewrite !H, toLowerCase_idempotent.
Qed.

(** *** [embedContent] *)

Lemma join_cons2 sep x y l :
  join sep (x :: y :: l) = default "" x +:+ sep +:+ join sep (y :: l).
Proof. reflexivity. Qed.

Lemma join_singleton sep x : join sep [x] = default "" x.
Proof. cbn [join]. apply append_nil_r. Qed.

Lemma join_empty_sep l : join "" l = foldr String.append "" (map (default "") l).
Proof.
  induction l as [|x l IH]; [done|]. destruct l as [|y l].
  - rewrite join_singleton. simpl. by rewrite append_nil_r.
  - rewrite join_cons2, IH. reflexivity.
Qed.

Lemma join_length sep (l : list (option string)) :
  String.length (join sep l)
  = (String.length (foldr String.append "" (map (default "") l))
     + String.length sep * (length l - 1))%nat.
Proof.
  induction l as [|x l IH]; [simpl; lia|]. destruct l as [|y l].
  - rewrite join_singleton. simpl. rewrite append_nil_r. lia.
  - rewrite join_cons2, !length_append, IH.
    change (foldr String.append "" (map (default "") (x :: y :: l)))
      with (default "" x
            +:+ foldr String.append "" (map (default "") (y :: l))).
    rewrite length_append. cbn [length]. lia.
Qed.

(** X10. [embedContent] sends the text of every part of every entry.
    The input of a single entry is the texts of its parts joined in
    order; the input of several entries is the input of the first, a line
    feed, and the input of the rest; so the input is as long as the whole
    input text plus one line feed between consecutive entries.  No
    entries, or contents that are not an array, give the empty input. *)
Theorem X10_embed_input_is_whole_text :
  (∀ c,
     embedInput (Some [c])
     = foldr String.append ""
         (map (λ p, default "" (p_text p)) (default [] (parts c))))
  ∧ (∀ c c' cs,
       embedInput (Some (c :: c' :: cs))
       = embedInput (Some [c])
         +:+ String "010"%char "" +:+ embedInput (Some (c' :: cs)))
  ∧ (∀ cs,
       String.length (embedInput (Some cs))
       = (String.length (inputText (Some cs)) + (length cs - 1))%nat)
  ∧ (∀ c, embedInput (Some [c]) = inputText (Some [c]))
  ∧ embedInput (Some []) = ""
  ∧ embedInput None = "".
Proof.
  assert (∀ c : Content,
            match parts c with
            | Some ps => join "" (map p_text ps)
            | None => ""
            end
            = foldr String.append ""
                (map (λ p, default "" (p_text p)) (default [] (parts c))))
    as Hentry.
  { intros c. destruct (parts c) as [ps|]; [|done].
    rewrite join_empty_sep, map_map. done. }
  assert (∀ c, embedInput (Some [c])
               = foldr String.append ""
                   (map (λ p, default "" (p_text p)) (default [] (parts c))))
    as Hone.
  { intros c. unfold embedInput. cbn [map]. rewrite join_singleton.
    cbn [default]. apply Hentry. }
  split; [exact Hone|].
  split.
  { intros c c' cs. unfold embedInput. cbn [map].
    by rewrite join_cons2, join_singleton. }
  split; [|split; [|done]].
  - intros cs. unfold embedInput, inputText.
    rewrite join_length, !map_map, length_map. cbn [String.length].
    rewrite Nat.mul_1_l. do 3 f_equal.
    apply map_ext. intros c. cbn [default]. apply Hentry.
  - intros c. rewrite Hone. unfold inputText. cbn [map foldr].
    by rewrite append_nil_r.
Qed.

Example embedInput_twoEntries :
  embedInput twoEntries = "abcd" +:+ String "010"%char "efg"
  ∧ inputText twoEntries = "abcdefg"
  ∧ countedText twoEntries = "ab".
Proof. vm_compute. repeat split; reflexivity. Qed.

(** *** [getOpenAI] *)

Lemma dropSlashes_no_slash r : isPrefix ["/"%char] (dropSlashes r) = false.
Proof.
  induction r as [|a r IH]; [done|]. simpl.
  case_bool_decide as Ha; [exact IH|].
  simpl. rewrite bool_decide_eq_false_2 by congruence. done.
Qed.

Lemma stripTrailingSlashes_no_slash u :
  endsWith (stripTrailingSlashes u) "/" = false.
Proof.
  unfold endsWith, stripTrailingSlashes.
  rewrite list_ascii_of_string_of_list_ascii, rev_involutive.
  apply dropSlashes_no_slash.
Qed.

Lemma withV1_idempotent u : withV1 (withV1 u) = withV1 u.
Proof.
  destruct (TranslatorFacts.withV1_spec (withV1 u)) as (_ & H & _).
  apply H. apply TranslatorFacts.withV1_spec.
Qed.

Lemma string_of_list_ascii_app l1 l2 :
  string_of_list_ascii (l1 ++ l2)
  = string_of_list_ascii l1 +:+ string_of_list_ascii l2.
Proof.
  induction l1 as [|a l1 IH]; [done|]. simpl. by rewrite IH, append_cons.
Qed.

Lemma dropSlashes_run r : ∃ n, r = repeat "/"%char n ++ dropSlashes r.
Proof.
  induction r as [|a r [n IH]]; [by exists 0%nat|]. simpl.
  case_bool_decide as Ha.
  - subst a. exists (S n). simpl. by rewrite <- IH.
  - by exists 0%nat.
Qed.

(** The trailing slashes are all that [stripTrailingSlashes] takes off. *)
Lemma stripTrailingSlashes_run u :
  ∃ n, u = stripTrailingSlashes u +:+ slashes n.
Proof.
  destruct (dropSlashes_run (rev (list_ascii_of_string u))) as [n Hn].
  exists n. unfold stripTrailingSlashes, slashes.
  rewrite <- string_of_list_ascii_app,
    <- (rev_repeat (A := ascii) n "/"%char),
    <- rev_app_distr, <- Hn, rev_involutive.
  by rewrite string_of_list_ascii_of_string.
Qed.

(** X11. For the providers [ollama] and [local] the client's base URL
    ends in [/v1]; a base URL that ends in [/v1] is kept; any other is
    the configured URL with its run of trailing slashes taken off and
    [/v1] put in their place, so that no slash comes before [/v1];
    building the options again from the result changes nothing.  For
    [openai] and [deepseek] the base URL is passed on as it is. *)
Theorem X11_client_base_url config :
  (ac_provider config = Ollama ∨ ac_provider config = Local →
   endsWith (o_baseURL (getOpenAI config)) "/v1" = true
   ∧ (endsWith (ac_baseUrl config) "/v1" = true →
      o_baseURL (getOpenAI config) = ac_baseUrl config)
   ∧ (endsWith (ac_baseUrl config) "/v1" = false →
      ∃ stem n,
        ac_baseUrl config = stem +:+ slashes n
        ∧ endsWith stem "/" = false
        ∧ o_baseURL (getOpenAI config) = stem +:+ "/v1")
   ∧ withV1 (o_baseURL (getOpenAI config)) = o_baseURL (getOpenAI config))
  ∧ (ac_provider config = OpenAI ∨ ac_provider config = DeepSeek →
     o_baseURL (getOpenAI config) = ac_baseUrl config).
Proof.
  split.
  - intros Hp.
    assert (o_baseURL (getOpenAI config) = withV1 (ac_baseUrl config)) as ->.
    { unfold getOpenAI. by destruct Hp as [-> | ->]. }
    destruct (TranslatorFacts.withV1_spec (ac_baseUrl config))
      as (Hends & Hkeep & Hadd).
    split; [exact Hends|]. split; [exact Hkeep|].
    split; [|apply withV1_idempotent].
    intros Hno.
    destruct (stripTrailingSlashes_run (ac_baseUrl config)) as [n Hn].
    exists (stripTrailingSlashes (ac_baseUrl config)), n.
    split; [exact Hn|].
    split; [apply stripTrailingSlashes_no_slash|by apply Hadd].
  - intros Hp. unfold getOpenAI. by destruct Hp as [-> | ->].
Qed.

Lemma X11_client_base_url_witness :
  ∃ stem n,
    "http://localhost:11434//" = stem +:+ slashes n
    ∧ endsWith stem "/" = false
    ∧ o_baseURL (getOpenAI {| ac_provider := Ollama; ac_model := "llama3";
                              ac_baseUrl := "http://localhost:11434//";
                              ac_apiKey := None; ac_apiVersion := None |})
      = stem +:+ "/v1".
Proof.
  apply (X11_client_base_url
           {| ac_provider := Ollama; ac_model := "llama3";
              ac_baseUrl := "http://localhost:11434//";
              ac_apiKey := None; ac_apiVersion := None |}).
  - left. reflexivity.
  - vm_compute. reflexivity.
Defined.

Example trailing_slashes_are_dropped :
  o_baseURL (getOpenAI {| ac_provider := Ollama; ac_model := "llama3";
                          ac_baseUrl := "http://localhost:11434//";
                          ac_apiKey := None; ac_apiVersion := None |})
  = "http://localhost:11434/v1".
Proof. vm_compute. reflexivity. Qed.

(** X12. The client is never built with an empty key: the key is the
    configured one when that is a non-empty string and [dummy-key]
    otherwise, for every provider. *)
Theorem X12_client_key_never_empty config :
  o_apiKey (getOpenAI config) ≠ ""
  ∧ o_apiKey (getOpenAI config) = orElse (ac_apiKey config) "dummy-key".
Proof.
  assert (o_apiKey (getOpenAI config) = orElse (ac_apiKey config) "dummy-key")
    as ->.
  { unfold getOpenAI. destruct (ac_provider config); try reflexivity.
    cbn [o_apiKey]. unfold truthy, orElse.
    destruct (ac_apiKey config) as [k|]; [|done]. by case_bool_decide. }
  split; [|done]. unfold orElse.
  destruct (ac_apiKey config) as [k|]; [|done]. by case_bool_decide.
Qed.

End AdapterFacts.

(** ** More on the request translator *)

Module TranslatorMore.
Import Translator Adapter StringFacts.

Lemma fillRequest_base convert provider model config
    (base : gmap string RequestField) k :
  k ∈ ["model"; "messages"; "stream"] →
  fillRequest convert provider model config base !! k = base !! k.
Proof.
  intros Hk. apply list_elem_of_In in Hk. simpl in Hk.
  destruct Hk as [<- | [<- | [<- | []]]];
    rewrite TranslatorFacts.fillRequest_lookup by done;
    by rewrite !TranslatorFacts.forward_lookup.
Qed.

Lemma fillRequest_tools convert provider model config
    (base : gmap string RequestField) :
  base !! "tools" = None → base !! "tool_choice" = None →
  fillRequest convert provider model config base !! "tools"
  = (if jsTruthy (configGet config "tools")
        && bool_decide (0 < length (convert (configGet config "tools")))%nat
     then Some (RTools (convert (configGet config "tools"))) else None)
  ∧ fillRequest convert provider model config base !! "tool_choice"
    = (if jsTruthy (configGet config "tools")
          && bool_decide (0 < length (convert (configGet config "tools")))%nat
       then Some (RToolChoice "auto") else None).
Proof.
  intros Ht Hc.
  assert (∀ k, k = "tools" ∨ k = "tool_choice" →
            forward config "top_p" "top_p"
              (forward config "maxOutputTokens" "max_tokens"
                 (forward config "temperature" "temperature" base)) !! k
            = None) as Hrc.
  { intros k [-> | ->]; by rewrite !TranslatorFacts.forward_lookup. }
  unfold fillRequest.
  assert (shouldSkipTools provider model = false) as ->
    by by destruct provider.
  rewrite andb_true_r.
  destruct (jsTruthy (configGet config "tools")); cbn [andb];
    [|split; apply Hrc; auto].
  case_bool_decide.
  - split; [by rewrite lookup_insert_ne, lookup_insert_eq
           |by rewrite lookup_insert_eq].
  - split; apply Hrc; auto.
Qed.

Section WithRuntime.
Context `{RT : JSRuntime}.

(** X13. Whatever the source config holds, the request [generateContent]
    sends and the request [generateContentStream] sends both carry the
    adapter's model and the translation [toMessages] gives of the
    request's contents; [stream], set to [true], is in the streaming
    request only; in both, [tools] and [tool_choice] come together, the
    latter as [auto], exactly when [config.tools] counts as true and
    converts to at least one tool. *)
Theorem X13_request_skeleton convert provider model contents config :
  generateContentRequest convert provider model contents config !! "model"
  = Some (RModel model)
  ∧ generateContentRequest convert provider model contents config
      !! "messages"
    = Some (RMessages (toMessages contents))
  ∧ generateContentRequest convert provider model contents config !! "stream"
    = None
  ∧ generateContentRequest convert provider model contents config !! "tools"
    = (if jsTruthy (configGet config "tools")
          && bool_decide (0 < length (convert (configGet config "tools")))%nat
       then Some (RTools (convert (configGet config "tools"))) else None)
  ∧ generateContentRequest convert provider model contents config
      !! "tool_choice"
    = (if jsTruthy (configGet config "tools")
          && bool_decide (0 < length (convert (configGet config "tools")))%nat
       then Some (RToolChoice "auto") else None)
  ∧ generateContentStreamRequest convert provider model contents config
      !! "model"
    = Some (RModel model)
  ∧ generateContentStreamRequest convert provider model contents config
      !! "messages"
    = Some (RMessages (toMessages contents))
  ∧ generateContentStreamRequest convert provider model contents config
      !! "stream"
    = Some (RStream true)
  ∧ generateContentStreamRequest convert provider model contents config
      !! "tools"
    = (if jsTruthy (configGet config "tools")
          && bool_decide (0 < length (convert (configGet config "tools")))%nat
       then Some (RTools (convert (configGet config "tools"))) else None)
  ∧ generateContentStreamRequest convert provider model contents config
      !! "tool_choice"
    = (if jsTruthy (configGet config "tools")
          && bool_decide (0 < length (convert (configGet config "tools")))%nat
       then Some (RToolChoice "auto") else None).
Proof.
  unfold generateContentRequest, generateContentStreamRequest, requestConfig,
    requestConfigStream.
  rewrite !(fillRequest_base _ _ _ _ _ "model"),
    !(fillRequest_base _ _ _ _ _ "messages"),
    !(fillRequest_base _ _ _ _ _ "stream")
    by (repeat first [apply list_elem_of_here | apply list_elem_of_further]).
  repeat split; try done.
  all: apply fillRequest_tools; done.
Qed.

End WithRuntime.

(** A streaming request with one tool and no sampling parameter. *)
Example streaming_request_with_tools :
  generateContentStreamRequest (RT := Reference.runtime)
    (λ tools, [tools]) Ollama "llama3" (Some toolConversation)
    (Some {["tools" := JArr [JObj []]]})
  = <["tool_choice" := RToolChoice "auto"]>
      (<["tools" := RTools [JArr [JObj []]]]>
         (<["stream" := RStream true]>
            (<["messages" :=
                 RMessages
                   [ {| m_role := Some "user"; m_tool_call_id := None;
                        m_content := Some "run the tool" |};
                     {| m_role := Some "tool"; m_tool_call_id := Some "call_1";
                        m_content := Some "42" |} ]]>
               {["model" := RModel "llama3"]}))).
Proof. vm_compute. reflexivity. Qed.

(** *** [toMessages] *)




Section WithRuntime.
Context `{RT : JSRuntime}.


End WithRuntime.


(** A [functionCall] that is [null] does not count: the text is sent. *)
Example null_functionCall_is_skipped :
  toMessages (RT := Reference.runtime) (Some [nullCallContent])
  = [ {| m_role := Some "user"; m_tool_call_id := None;
         m_content := Some "plain text" |} ].
Proof. vm_compute. reflexivity. Qed.

(** *** [countTokens] *)

(** X15. [countTokens] returns the least number of four-character groups
    that cover the text it reads: never negative, zero exactly for the
    empty text, and within one group of a quarter of the length. *)
Theorem X15_token_count_bounds contents :
  0 ≤ countTokens contents
  ∧ 4 * (countTokens contents - 1)
    < Z.of_nat (String.length (countedText contents))
    ≤ 4 * countTokens contents
  ∧ (countTokens contents = 0 ↔ countedText contents = "").
Proof.
  unfold countTokens.
  pose proof (TranslatorFacts.ceilQuarter_spec
                (Z.of_nat (String.length (countedText contents)))) as H.
  split; [lia|]. split; [exact H|].
  split.
  - intros H0. rewrite H0 in H.
    destruct (countedText contents); [done|]. simpl in H. lia.
  - intros ->. reflexivity.
Qed.

End TranslatorMore.

(** ** More on the generator factory *)

Module FactoryMore.
Import Factory ConfigBuilder.

Lemma byProvider_other config env :
  effectiveProvider config env ∉ ["openai"; "deepseek"; "ollama"] →
  byProvider config env = None.
Proof.
  intros Hp. unfold byProvider.
  rewrite !bool_decide_eq_false_2; [done|..]; intros E; apply Hp; rewrite E;
    repeat first [apply list_elem_of_here | apply list_elem_of_further].
Qed.

(** X16. With the provider [openai] or [deepseek] the factory, in either
    revision, fails when the config has no key and otherwise builds the
    OpenAI-compatible generator with the key of the config; a key in the
    environment is not looked at. *)
Theorem X16_key_required config env :
  (provider config = Some "openai" →
   ByAuth.createContentGenerator config env
   = ByProvider.createContentGenerator config env
   ∧ (truthy (apiKey config) = false →
      ByAuth.createContentGenerator config env
      = inl "OpenAI API key is required")
   ∧ (truthy (apiKey config) = true →
      ∃ m url,
        ByAuth.createContentGenerator config env
        = inr (OpenAIContentGenerator (default "" (apiKey config)) m
                 (Some "openai") (Some url))))
  ∧ (provider config = Some "deepseek" →
     ByAuth.createContentGenerator config env
     = ByProvider.createContentGenerator config env
     ∧ (truthy (apiKey config) = false →
        ByAuth.createContentGenerator config env
        = inl "DeepSeek API key is required")
     ∧ (truthy (apiKey config) = true →
        ∃ m url,
          ByAuth.createContentGenerator config env
          = inr (OpenAIContentGenerator (default "" (apiKey config)) m
                   (Some "deepseek") (Some url)))).
Proof.
  unfold ByAuth.createContentGenerator, ByProvider.createContentGenerator,
    byProvider, effectiveProvider.
  split; intros ->; cbn [orElse bool_decide decide]; simpl;
    (split; [reflexivity|]); split; intros ->; simpl; eauto.
Qed.

Lemma X16_key_required_witness :
  ByAuth.createContentGenerator
    {| model := "gpt-4o"; apiKey := None; vertexai := None;
       authType := Some USE_OPENAI; provider := Some "openai";
       baseURL := None |}
    {["OPENAI_API_KEY" := "sk-from-env"]}
  = inl "OpenAI API key is required".
Proof.
  destruct (proj1 (X16_key_required
                     {| model := "gpt-4o"; apiKey := None; vertexai := None;
                        authType := Some USE_OPENAI; provider := Some "openai";
                        baseURL := None |}
                     {["OPENAI_API_KEY" := "sk-from-env"]}) eq_refl)
    as (_ & Hfail & _).
  apply Hfail. reflexivity.
Defined.

(** X17. With a provider other than the three aliases, the revision that
    looks at the auth type reaches one of its own [throw] statements
    exactly when no auth type is set, or when it is [USE_OPENAI] and the
    config has no key; otherwise it returns what the constructor chosen
    by the auth type gives.  The revision that looks at the provider
    alone reaches its own [throw] exactly when the provider is not
    [gemini]; for [gemini] it returns the Google client when the config
    has a key, and otherwise what the code-assist factory gives for
    [USE_GEMINI]. *)
Theorem X17_failures_of_other_providers config env :
  effectiveProvider config env ∉ ["openai"; "deepseek"; "ollama"] →
  ((∃ message, ByAuth.createContentGenerator config env = inl message)
   ↔ authType config = None
     ∨ (authType config = Some USE_OPENAI ∧ truthy (apiKey config) = false))
  ∧ (authType config = None →
     ByAuth.createContentGenerator config env
     = inl ("Error creating contentGenerator: Unsupported authType: "
            +:+ "undefined" +:+ " or provider: "
            +:+ effectiveProvider config env))
  ∧ ((∃ message, ByProvider.createContentGenerator config env = inl message)
     ↔ effectiveProvider config env ≠ "gemini")
  ∧ (effectiveProvider config env = "gemini" →
     ByProvider.createContentGenerator config env
     = if truthy (apiKey config)
       then inr (GoogleGenAIModels (apiKey config) (Some false))
       else inr (CodeAssistContentGenerator USE_GEMINI)).
Proof.
  intros Hp.
  unfold ByAuth.createContentGenerator, ByProvider.createContentGenerator.
  rewrite (byProvider_other config env Hp). split; [|split; [|split]].
  - destruct (authType config) as [[]|];
      try (split; [intros [m Hm]; discriminate Hm
                  |intros [H|[H _]]; discriminate H]).
    + destruct (truthy (apiKey config)); simpl.
      * split; [intros [m Hm]; discriminate Hm|].
        intros [H|[_ H]]; discriminate H.
      * split; eauto.
    + split; eauto.
  - by intros ->.
  - case_bool_decide as Hg.
    + split; [|done]. destruct (truthy (apiKey config));
        intros [m Hm]; discriminate Hm.
    + split; eauto.
  - intros Hg. by rewrite bool_decide_eq_true_2.
Qed.

Lemma X17_failures_of_other_providers_witness :
  (∃ message,
     ByAuth.createContentGenerator
       {| model := "m"; apiKey := None; vertexai := None; authType := None;
          provider := None; baseURL := None |} ∅ = inl message)
  ∧ ByProvider.createContentGenerator
      {| model := "m"; apiKey := None; vertexai := None; authType := None;
         provider := None; baseURL := None |} ∅
    = inr (CodeAssistContentGenerator USE_GEMINI).
Proof.
  assert (effectiveProvider
            {| model := "m"; apiKey := None; vertexai := None;
               authType := None; provider := None; baseURL := None |} ∅
          ∉ ["openai"; "deepseek"; "ollama"]) as Hp.
  { intros Hin. apply list_elem_of_In in Hin. vm_compute in Hin.
    repeat (destruct Hin as [Hin|Hin]; [discriminate Hin|]). exact Hin. }
  destruct (X17_failures_of_other_providers _ ∅ Hp)
    as (Hauth & _ & _ & Hgemini).
  split.
  - apply Hauth. left. reflexivity.
  - apply Hgemini. reflexivity.
Defined.

(** X18. With the provider set to one of the three aliases the two
    revisions return the same result, and the result does not depend on
    the auth type or on the [vertexai] flag of the config. *)
Theorem X18_alias_ignores_auth_type config env alias authType' vertexai' :
  alias ∈ ["openai"; "deepseek"; "ollama"] →
  provider config = Some alias →
  ByAuth.createContentGenerator config env
  = ByProvider.createContentGenerator
      {| model := model config; apiKey := apiKey config;
         vertexai := vertexai'; authType := authType';
         provider := provider config; baseURL := baseURL config |} env.
Proof.
  intros Ha Hp. apply list_elem_of_In in Ha. simpl in Ha.
  unfold ByAuth.createContentGenerator, ByProvider.createContentGenerator,
    byProvider, effectiveProvider. cbn [provider model apiKey baseURL].
  rewrite Hp.
  destruct Ha as [<- | [<- | [<- | []]]]; simpl; try reflexivity;
    by destruct (truthy (apiKey config)).
Qed.

Lemma X18_alias_ignores_auth_type_witness :
  ByAuth.createContentGenerator ollamaWithoutSuffix ∅
  = ByProvider.createContentGenerator
      {| model := "llama3"; apiKey := None; vertexai := Some true;
         authType := Some USE_GEMINI; provider := Some "ollama";
         baseURL := Some "http://localhost:11434" |} ∅.
Proof.
  apply (X18_alias_ignores_auth_type ollamaWithoutSuffix ∅ "ollama"
           (Some USE_GEMINI) (Some true)).
  - do 2 apply list_elem_of_further. apply list_elem_of_here.
  - reflexivity.
Defined.

End FactoryMore.

(** ** From the session config to the generator *)

Module PipelineFacts.
Import Factory ConfigBuilder.

Lemma truthy_envVar (env : gmap string string) k :
  truthy (env !! k) = true → envVar env k = env !! k.
Proof. intros H. unfold envVar. by rewrite H. Qed.

Lemma orElse_twice o d : orElse o (orElse o d) = orElse o d.
Proof.
  unfold orElse. destruct o as [s|]; [|done]. by case_bool_decide.
Qed.

Section WithDefaultModel.
Variable DEFAULT_GEMINI_MODEL : string.

(** X19. In the revision that sets the key by provider, a session with
    the provider [openai] gets the OpenAI-compatible generator exactly
    when [OPENAI_API_KEY] is set, with that key and with
    [OPENAI_BASE_URL] or the default host as base URL; one with
    [deepseek] likewise from [DEEPSEEK_API_KEY] and [DEEPSEEK_API_BASE];
    one with [ollama] always, with the empty key and [OLLAMA_BASE_URL] or
    the local default followed by [/v1].  The auth type plays no part. *)
Theorem X19_session_to_generator_by_provider config authType env :
  (sc_getProvider config = Some "openai" →
   ByProvider.createContentGenerator
     (createContentGeneratorConfig_byProvider DEFAULT_GEMINI_MODEL config
        authType env) env
   = if truthy (env !! "OPENAI_API_KEY")
     then inr (OpenAIContentGenerator
                 (default "" (env !! "OPENAI_API_KEY"))
                 (orElse (Some (effectiveModel DEFAULT_GEMINI_MODEL config))
                    (orElse (env !! "OPENAI_API_MODEL") "gpt-3.5-turbo"))
                 (Some "openai")
                 (Some (orElse (env !! "OPENAI_BASE_URL")
                          "https://api.openai.com/v1")))
     else inl "OpenAI API key is required")
  ∧ (sc_getProvider config = Some "deepseek" →
     ByProvider.createContentGenerator
       (createContentGeneratorConfig_byProvider DEFAULT_GEMINI_MODEL config
          authType env) env
     = if truthy (env !! "DEEPSEEK_API_KEY")
       then inr (OpenAIContentGenerator
                   (default "" (env !! "DEEPSEEK_API_KEY"))
                   (orElse (Some (effectiveModel DEFAULT_GEMINI_MODEL config))
                      (orElse (env !! "DEEPSEEK_API_MODEL") "deepseek-chat"))
                   (Some "deepseek")
                   (Some (orElse (env !! "DEEPSEEK_API_BASE")
                            "https://api.deepseek.com/v1")))
       else inl "DeepSeek API key is required")
  ∧ (sc_getProvider config = Some "ollama" →
     ByProvider.createContentGenerator
       (createContentGeneratorConfig_byProvider DEFAULT_GEMINI_MODEL config
          authType env) env
     = inr (OpenAIContentGenerator ""
              (orElse (Some (effectiveModel DEFAULT_GEMINI_MODEL config))
                 (orElse (env !! "OLLAMA_MODEL") "llama2"))
              (Some "ollama")
              (Some (orElse (env !! "OLLAMA_BASE_URL") "http://localhost:11434"
                     +:+ "/v1")))).
Proof.
  unfold ByProvider.createContentGenerator, byProvider, effectiveProvider,
    createContentGeneratorConfig_byProvider, initialConfig.
  split; [|split]; intros ->; cbn [orElse bool_decide decide andb]; simpl.
  - destruct (truthy (env !! "OPENAI_API_KEY")) eqn:Hk; simpl.
    + rewrite truthy_envVar, Hk by done. simpl. by rewrite orElse_twice.
    + reflexivity.
  - destruct (truthy (env !! "DEEPSEEK_API_KEY")) eqn:Hk; simpl.
    + rewrite truthy_envVar, Hk by done. simpl. by rewrite orElse_twice.
    + reflexivity.
  - by destruct (bool_decide (orElse (env !! "OLLAMA_BASE_URL")
                                "http://localhost:11434" = "")).
Qed.

(** X20. The two functions of that revision do not read the provider the
    same way: the config is filled in for [getProvider()] or [gemini],
    the generator is chosen by [getProvider()], [GEMINI_PROVIDER] or
    [gemini].  So with no provider in the session and
    [GEMINI_PROVIDER=openai], the OpenAI-compatible generator is built
    with the Gemini key, or not at all when [GEMINI_API_KEY] is not set;
    [OPENAI_API_KEY] is not read. *)
Theorem X20_provider_from_environment config authType env :
  truthy (sc_getProvider config) = false →
  env !! "GEMINI_PROVIDER" = Some "openai" →
  ByProvider.createContentGenerator
    (createContentGeneratorConfig_byProvider DEFAULT_GEMINI_MODEL config
       authType env) env
  = if truthy (env !! "GEMINI_API_KEY")
    then inr (OpenAIContentGenerator
                (default "" (env !! "GEMINI_API_KEY"))
                (orElse (Some (effectiveModel DEFAULT_GEMINI_MODEL config))
                   (orElse (env !! "OPENAI_API_MODEL") "gpt-3.5-turbo"))
                (Some "openai")
                (Some (orElse (env !! "OPENAI_BASE_URL")
                         "https://api.openai.com/v1")))
    else inl "OpenAI API key is required".
Proof.
  intros Hp Henv.
  assert (orElse (sc_getProvider config) "gemini" = "gemini") as Hb.
  { unfold truthy, orElse in *. destruct (sc_getProvider config) as [s|];
      [|done]. by case_bool_decide. }
  assert (∀ d, orElse (sc_getProvider config) d = d) as Hf.
  { intros d. unfold truthy, orElse in *.
    destruct (sc_getProvider config) as [s|]; [|done]. by case_bool_decide. }
  unfold ByProvider.createContentGenerator, byProvider, effectiveProvider,
    createContentGeneratorConfig_byProvider, initialConfig.
  rewrite Hb. cbn [bool_decide decide andb]. simpl.
  destruct (truthy (env !! "GEMINI_API_KEY")) eqn:Hk;
    cbn [provider apiKey model baseURL]; rewrite Hf, Henv; simpl.
  - by rewrite truthy_envVar, Hk by done.
  - reflexivity.
Qed.

(** X21. In the revision that sets the key by auth type, a session with
    the provider [openai] or [deepseek] and the auth type [USE_OPENAI]
    gets the OpenAI-compatible generator exactly when [OPENAI_API_KEY] is
    set, and with that key for either provider; with no auth type, or
    with a Google login, the config gets no key and the factory fails. *)
Theorem X21_session_to_generator_by_auth config authType env alias :
  alias ∈ ["openai"; "deepseek"] →
  sc_getProvider config = Some alias →
  (authType = Some USE_OPENAI →
   (truthy (env !! "OPENAI_API_KEY") = true →
    ∃ m url,
      ByAuth.createContentGenerator
        (createContentGeneratorConfig_byAuth DEFAULT_GEMINI_MODEL config
           authType env) env
      = inr (OpenAIContentGenerator (default "" (env !! "OPENAI_API_KEY")) m
               (Some alias) (Some url)))
   ∧ (truthy (env !! "OPENAI_API_KEY") = false →
      ∃ message,
        ByAuth.createContentGenerator
          (createContentGeneratorConfig_byAuth DEFAULT_GEMINI_MODEL config
             authType env) env
        = inl message))
  ∧ (authType = None ∨ authType = Some LOGIN_WITH_GOOGLE
     ∨ authType = Some CLOUD_SHELL →
     ∃ message,
       ByAuth.createContentGenerator
         (createContentGeneratorConfig_byAuth DEFAULT_GEMINI_MODEL config
            authType env) env
       = inl message).
Proof.
  intros Ha Hp. apply list_elem_of_In in Ha. simpl in Ha.
  unfold ByAuth.createContentGenerator, byProvider, effectiveProvider,
    createContentGeneratorConfig_byAuth, initialConfig.
  split.
  - intros ->. split; intros Hk; rewrite Hk; cbn [provider apiKey];
      rewrite Hp; destruct Ha as [<- | [<- | []]]; simpl;
      rewrite ?Hk; simpl; eauto.
  - intros [-> | [-> | ->]]; cbn [provider apiKey]; rewrite Hp;
      destruct Ha as [<- | [<- | []]]; simpl; eauto.
Qed.

End WithDefaultModel.

Lemma X19_session_to_generator_by_provider_witness :
  ByProvider.createContentGenerator
    (createContentGeneratorConfig_byProvider "gemini-2.5-pro" openaiSession
       None {["OPENAI_API_KEY" := "sk-1"]})
    {["OPENAI_API_KEY" := "sk-1"]}
  = inr (OpenAIContentGenerator "sk-1" "gpt-4o" (Some "openai")
           (Some "https://api.openai.com/v1")).
Proof.
  rewrite (proj1 (X19_session_to_generator_by_provider "gemini-2.5-pro"
                    openaiSession None {["OPENAI_API_KEY" := "sk-1"]})
             eq_refl).
  vm_compute. reflexivity.
Defined.

Lemma X20_provider_from_environment_witness :
  ByProvider.createContentGenerator
    (createContentGeneratorConfig_byProvider "gemini-2.5-pro" defaultSession
       None
       (<["GEMINI_PROVIDER" := "openai"]>
          (<["GEMINI_API_KEY" := "g-key"]> {["OPENAI_API_KEY" := "sk-1"]})))
    (<["GEMINI_PROVIDER" := "openai"]>
       (<["GEMINI_API_KEY" := "g-key"]> {["OPENAI_API_KEY" := "sk-1"]}))
  = inr (OpenAIContentGenerator "g-key" "gemini-2.5-pro" (Some "openai")
           (Some "https://api.openai.com/v1")).
Proof.
  rewrite (X20_provider_from_environment "gemini-2.5-pro" defaultSession None
             (<["GEMINI_PROVIDER" := "openai"]>
                (<["GEMINI_API_KEY" := "g-key"]>
                   {["OPENAI_API_KEY" := "sk-1"]})) eq_refl);
    [|vm_compute; reflexivity].
  vm_compute. reflexivity.
Defined.

Lemma X21_session_to_generator_by_auth_witness :
  ∃ m url,
    ByAuth.createContentGenerator
      (createContentGeneratorConfig_byAuth "gemini-2.5-pro"
         {| sc_model := None; sc_getModel := None;
            sc_getProvider := Some "deepseek" |}
         (Some USE_OPENAI)
         (<["OPENAI_API_KEY" := "sk-1"]> {["DEEPSEEK_API_KEY" := "ds-1"]}))
      (<["OPENAI_API_KEY" := "sk-1"]> {["DEEPSEEK_API_KEY" := "ds-1"]})
    = inr (OpenAIContentGenerator "sk-1" m (Some "deepseek") (Some url)).
Proof.
  assert ("deepseek" ∈ ["openai"; "deepseek"]) as Hin
    by apply list_elem_of_further, list_elem_of_here.
  destruct (X21_session_to_generator_by_auth "gemini-2.5-pro"
              {| sc_model := None; sc_getModel := None;
                 sc_getProvider := Some "deepseek" |}
              (Some USE_OPENAI)
              (<["OPENAI_API_KEY" := "sk-1"]> {["DEEPSEEK_API_KEY" := "ds-1"]})
              "deepseek" Hin eq_refl)
    as [Hopenai _].
  destruct (Hopenai eq_refl) as [Hkey _].
  apply Hkey. vm_compute. reflexivity.
Defined.

End PipelineFacts.

(** ** More on auth resolution *)

Module AuthMore.
Import Auth.

(** X22. The environment is a last resort: once an auth type is
    configured, or a provider other than [gemini] is set, the auth type
    settled on is the same in every environment.  A provider that is
    none of the three aliases leaves the configured auth type as it is,
    so with nothing configured the call ends in [process.exit(1)]
    whatever keys the environment holds. *)
Theorem X22_environment_is_last_resort configuredAuthType provider env env' :
  is_Some configuredAuthType
  ∨ (truthy provider = true ∧ provider ≠ Some "gemini") →
  effectiveAuthType configuredAuthType provider env
  = effectiveAuthType configuredAuthType provider env'
  ∧ (truthy provider = true →
     provider ∉ [Some "gemini"; Some "openai"; Some "deepseek"; Some "ollama"] →
     effectiveAuthType configuredAuthType provider env = configuredAuthType
     ∧ ∀ settingsPath validate useExternalAuth,
         configuredAuthType = None →
         ∃ message,
           validateNonInteractiveAuth settingsPath validate None
             useExternalAuth provider env
           = Exit 1 message).
Proof.
  intros Hset. split.
  - unfold effectiveAuthType.
    destruct (truthy provider && negb (bool_decide (provider = Some "gemini")))
      eqn:Hp; [done|].
    destruct Hset as [[a ->] | [Ht Hg]]; [done|].
    rewrite Ht, bool_decide_eq_false_2 in Hp by done. discriminate Hp.
  - intros Ht Hother.
    assert (effectiveAuthType configuredAuthType provider env
            = configuredAuthType) as He.
    { unfold effectiveAuthType. rewrite Ht.
      rewrite !bool_decide_eq_false_2; [done|..]; intros E; apply Hother;
        rewrite E;
        repeat first [apply list_elem_of_here | apply list_elem_of_further]. }
    split; [exact He|].
    intros settingsPath validate useExternalAuth ->.
    unfold validateNonInteractiveAuth. rewrite He. eauto.
Qed.

Lemma X22_environment_is_last_resort_witness :
  ∃ message,
    validateNonInteractiveAuth "settings.json" (λ _, None) None (Some true)
      (Some "local") {["OPENAI_API_KEY" := "sk-1"]}
    = Exit 1 message.
Proof.
  assert (truthy (Some "local") = true ∧ Some "local" ≠ Some "gemini") as Hp
    by (split; [reflexivity|discriminate]).
  destruct (X22_environment_is_last_resort None (Some "local")
              {["OPENAI_API_KEY" := "sk-1"]} ∅ (or_intror Hp))
    as [_ Hother].
  destruct (Hother eq_refl) as [_ Hexit].
  - intros Hin. apply list_elem_of_In in Hin. simpl in Hin.
    repeat (destruct Hin as [Hin|Hin]; [discriminate Hin|]). exact Hin.
  - apply Hexit. reflexivity.
Defined.

(** X23. The call goes on to [refreshAuth] with an auth type exactly when
    that is the auth type settled on and either external auth is used or
    its validation reports no error; every other call ends in
    [process.exit] with code 1. *)
Theorem X23_outcome settingsPath validate configuredAuthType useExternalAuth
    provider env :
  (∀ a,
     validateNonInteractiveAuth settingsPath validate configuredAuthType
       useExternalAuth provider env = RefreshAuth a
     ↔ effectiveAuthType configuredAuthType provider env = Some a
       ∧ (useExternalAuth = Some true ∨ validate a = None))
  ∧ (∀ code message,
       validateNonInteractiveAuth settingsPath validate configuredAuthType
         useExternalAuth provider env = Exit code message →
       code = 1).
Proof.
  unfold validateNonInteractiveAuth.
  destruct (effectiveAuthType configuredAuthType provider env) as [a0|].
  - destruct useExternalAuth as [[]|]; cbn [default negb];
      try destruct (validate a0) as [err|] eqn:Hv.
    all: split;
      [ intros a; split;
        [ intros H; inversion H; subst; eauto
        | intros [H [Hu|Hv']]; inversion H; subst;
          try discriminate; try congruence; done ]
      | intros code message H; inversion H; done ].
  - split; [|intros code message H; by inversion H].
    intros a. split; [discriminate|]. intros [H _]. discriminate H.
Qed.

Lemma X23_outcome_witness :
  validateNonInteractiveAuth "settings.json" (λ _, Some "key is missing")
    (Some USE_GEMINI) (Some true) None ∅
  = RefreshAuth USE_GEMINI.
Proof.
  apply (X23_outcome "settings.json" (λ _, Some "key is missing")
           (Some USE_GEMINI) (Some true) None ∅).
  split; [reflexivity|]. left. reflexivity.
Defined.

End AuthMore.
